(** * Tolkien backend: goal pipeline and dashboard state

    A shallow embedding of [backend/main.py] and of the burn executor in
    [backend/services/burn_tokens.py], followed by the properties of the
    goal-crossing pipeline, the transaction log and the dashboard read.

    Conventions of the embedding.
    - A Python [float] is an exact rational ([Q]); [round(x, n)] rounds the
      exact value half-to-even at [n] decimals, [x // y] is the floor of the
      exact quotient.  Binary rounding error, NaN and infinities are outside
      the model.
    - The module-level dict [STATE] is the record [State]; functions that
      mutate it are state transformers in the monad [M], which also carries
      Python exceptions.  A raised exception keeps the mutations made so far,
      as it does on a process-wide dict.
    - Python's exception hierarchy is cut down to what the code can tell
      apart: classes below [Exception], which [except Exception] catches, and
      [SystemExit], which derives from [BaseException] only.
    - Every call that leaves the process (HTTP, JSON-RPC, the clock) is
      answered by a field of a world record: the model is a function of the
      answers the outside gives. *)

From Stdlib Require Import ZArith QArith Qround Lqa Lia List String Bool.
Import ListNotations.

Local Open Scope string_scope.
Local Open Scope Z_scope.
Local Open Scope Q_scope.

(** ** Python numbers *)

Module Py.

(** Truthiness of a float: [0.0] is falsy. *)
Definition truthy (x : Q) : bool := negb (Qeq_bool x 0).

(** [x or d] on floats. *)
Definition or_ (x d : Q) : Q := if truthy x then x else d.

(** [max(a, b)] returns [a] unless [b > a]; [min(a, b)] returns [a] unless
    [b < a]. *)
Definition max (a b : Q) : Q := if Qle_bool b a then a else b.
Definition min (a b : Q) : Q := if Qle_bool a b then a else b.

(** [x // y] on floats (for [y > 0]): the floor of the quotient, as a float. *)
Definition floordiv (x y : Q) : Q := inject_Z (Qfloor (x / y)).

(** [int(x)]: truncation toward zero. *)
Definition int (x : Q) : Z := Z.quot (Qnum x) (Z.pos (Qden x)).

Definition pow10 (n : nat) : Q := inject_Z (10 ^ Z.of_nat n).

(** Nearest integer, ties to the even one. *)
Definition round_half_even (x : Q) : Z :=
  let f := Qfloor x in
  match Qcompare (x - inject_Z f) (1 # 2) with
  | Lt => f
  | Gt => (f + 1)%Z
  | Eq => if Z.even f then f else (f + 1)%Z
  end.

(** [round(x, ndigits)]. *)
Definition round (x : Q) (ndigits : nat) : Q :=
  inject_Z (round_half_even (x * pow10 ndigits)) / pow10 ndigits.

(** Truthiness of an [Optional[str]]: [None] and [""] are falsy. *)
Definition truthy_str (s : option string) : bool :=
  match s with
  | Some s => negb (String.eqb s "")
  | None => false
  end.

End Py.

(** ** Exceptions and the state monad *)

Inductive exn : Type :=
| Exception (msg : string)     (* RuntimeError, ValueError, requests errors, ... *)
| SystemExit (msg : string).   (* BaseException, not an Exception *)

Inductive result (A : Type) : Type :=
| Ok (a : A)
| Raise (e : exn).
Arguments Ok {A} a.
Arguments Raise {A} e.

(** The answer of a call that leaves the process.  The client libraries
    (requests, solders, solana-py, json) raise subclasses of [Exception]
    only; [ExtErr] carries [str(e)]. *)
Inductive ext (A : Type) : Type :=
| ExtOk (a : A)
| ExtErr (msg : string).
Arguments ExtOk {A} a.
Arguments ExtErr {A} msg.

Definition of_ext {A} (r : ext A) : result A :=
  match r with
  | ExtOk a => Ok a
  | ExtErr msg => Raise (Exception msg)
  end.

Definition rbind {A B} (r : result A) (k : A -> result B) : result B :=
  match r with
  | Ok a => k a
  | Raise e => Raise e
  end.

(** [try: body  except Exception as e: handler(str(e))] on a computation
    without state. *)
Definition rcatch {A} (body : result A) (handler : string -> result A) : result A :=
  match body with
  | Raise (Exception msg) => handler msg
  | other => other
  end.

Definition M (S A : Type) : Type := S -> S * result A.

Definition ret {S A} (a : A) : M S A := fun s => (s, Ok a).

Definition bind {S A B} (m : M S A) (k : A -> M S B) : M S B :=
  fun s =>
    match m s with
    | (s', Ok a) => k a s'
    | (s', Raise e) => (s', Raise e)
    end.

Definition lift {S A} (r : result A) : M S A := fun s => (s, r).

Definition modify {S} (f : S -> S) : M S unit := fun s => (f s, Ok tt).

Definition gets {S A} (f : S -> A) : M S A := fun s => (s, Ok (f s)).

(** [try: body  except Exception as e: handler(str(e))].  The handler runs
    in the state the body left behind; [SystemExit] passes through. *)
Definition try_except {S A} (body : M S A) (handler : string -> M S A) : M S A :=
  fun s =>
    match body s with
    | (s', Raise (Exception msg)) => handler msg s'
    | other => other
    end.

Declare Scope py_scope.
Delimit Scope py_scope with py.
Notation "x <- m ;; k" := (bind m (fun x => k))
  (at level 61, m at next level, right associativity) : py_scope.
Notation "m ;; k" := (bind m (fun _ => k))
  (at level 61, right associativity) : py_scope.

(** ** Dashboard state *)

Record TransactionRecord : Type := {
  signature : option string;
  kind : string;            (* "claim" | "buyback" | "burn" *)
  amount_sol : Q;
  status : string;          (* "confirmed" | "recorded" *)
  timestamp : string;
  description : string
}.

Record State : Type := {
  price_usd : Q;
  volume_change_pct : Q;
  buybacks_usd : Q;
  burned_usd : Q;
  market_cap_usd : Q;
  supply_burned_pct : Q;
  last_goal_bucket : Z;
  tx : list TransactionRecord
}.

(** [STATE] as the module creates it. *)
Definition STATE0 : State := {|
  price_usd := 0; volume_change_pct := 0; buybacks_usd := 0; burned_usd := 0;
  market_cap_usd := 0; supply_burned_pct := 0; last_goal_bucket := 0%Z; tx := []
|}.

Definition GOAL_STEP : Q := 100000.
Definition LAMPORTS_PER_SOL : Z := 1000000000.

Definition set_tx (l : list TransactionRecord) (st : State) : State := {|
  price_usd := price_usd st; volume_change_pct := volume_change_pct st;
  buybacks_usd := buybacks_usd st; burned_usd := burned_usd st;
  market_cap_usd := market_cap_usd st; supply_burned_pct := supply_burned_pct st;
  last_goal_bucket := last_goal_bucket st; tx := l
|}.

Definition set_last_goal_bucket (b : Z) (st : State) : State := {|
  price_usd := price_usd st; volume_change_pct := volume_change_pct st;
  buybacks_usd := buybacks_usd st; burned_usd := burned_usd st;
  market_cap_usd := market_cap_usd st; supply_burned_pct := supply_burned_pct st;
  last_goal_bucket := b; tx := tx st
|}.

Definition set_buybacks_usd (v : Q) (st : State) : State := {|
  price_usd := price_usd st; volume_change_pct := volume_change_pct st;
  buybacks_usd := v; burned_usd := burned_usd st;
  market_cap_usd := market_cap_usd st; supply_burned_pct := supply_burned_pct st;
  last_goal_bucket := last_goal_bucket st; tx := tx st
|}.

Definition set_burned_usd (v : Q) (st : State) : State := {|
  price_usd := price_usd st; volume_change_pct := volume_change_pct st;
  buybacks_usd := buybacks_usd st; burned_usd := v;
  market_cap_usd := market_cap_usd st; supply_burned_pct := supply_burned_pct st;
  last_goal_bucket := last_goal_bucket st; tx := tx st
|}.

Definition set_supply_burned_pct (v : Q) (st : State) : State := {|
  price_usd := price_usd st; volume_change_pct := volume_change_pct st;
  buybacks_usd := buybacks_usd st; burned_usd := burned_usd st;
  market_cap_usd := market_cap_usd st; supply_burned_pct := v;
  last_goal_bucket := last_goal_bucket st; tx := tx st
|}.

Definition set_price_usd (v : Q) (st : State) : State := {|
  price_usd := v; volume_change_pct := volume_change_pct st;
  buybacks_usd := buybacks_usd st; burned_usd := burned_usd st;
  market_cap_usd := market_cap_usd st; supply_burned_pct := supply_burned_pct st;
  last_goal_bucket := last_goal_bucket st; tx := tx st
|}.

Definition set_market_cap_usd (v : Q) (st : State) : State := {|
  price_usd := price_usd st; volume_change_pct := volume_change_pct st;
  buybacks_usd := buybacks_usd st; burned_usd := burned_usd st;
  market_cap_usd := v; supply_burned_pct := supply_burned_pct st;
  last_goal_bucket := last_goal_bucket st; tx := tx st
|}.

(** ** The transaction log *)

(** The record [push_tx] builds; [now] is what [now_iso()] returns at the
    call. *)
Definition make_tx (now kind : string) (amount_sol : Q) (desc : string)
    (sig : option string) : TransactionRecord := {|
  signature := sig;
  kind := kind;
  amount_sol := Py.or_ amount_sol 0;
  status := if Py.truthy_str sig then "confirmed" else "recorded";
  timestamp := now;
  description := desc
|}.

(** [STATE["tx"].insert(0, {...}); STATE["tx"] = STATE["tx"][:50]] *)
Definition push_tx (now kind : string) (amount_sol : Q) (desc : string)
    (sig : option string) (st : State) : State :=
  set_tx (firstn 50 (make_tx now kind amount_sol desc sig :: tx st)) st.

(** ** Settings and the outside world *)

(** The environment variables both modules read at import. *)
Record Settings : Type := {
  WALLET_ADDRESS : string;
  WALLET_PRIVATE_KEY : string;
  SOLANA_RPC_URL : string;
  PRIORITY_FEE : Q;
  TOKEN_MINT : string;
  HELIUS_API_KEY : string
}.

(** Truthiness of a [str]. *)
Definition nonempty (s : string) : bool := negb (String.eqb s "").

(** The JSON body the RPC endpoint answers to [sendTransaction]: its
    ["result"] when present, and the text of its ["error"] payload. *)
Record RpcReply : Type := {
  reply_result : option string;
  reply_error : string
}.

(** One round through Pump Portal: the POST to [/api/trade-local] with
    [raise_for_status], then signing and the POST to the RPC endpoint with
    [raise_for_status] and [r.json()]. *)
Record Trade : Type := {
  portal : ext unit;
  submit : ext RpcReply
}.

(** What the chain answers to the burn executor. *)
Record BurnWorld : Type := {
  library_imports : ext unit;       (* the module's own import lines *)
  mint_pubkey : ext unit;           (* PublicKey(TOKEN_MINT_STR) *)
  keypair : ext unit;               (* b58decode + Keypair.from_secret_key *)
  token_supply : ext (option Z);    (* get_token_supply: decimals, if a value came back *)
  ata_info : ext bool;              (* get_account_info(ata): does the account exist *)
  create_ata : ext unit;            (* send + confirm the account creation *)
  account_info : ext (option Z);    (* get_account_info(ata): raw amount, if a value came back *)
  send_burn : Z -> ext string       (* send + confirm the burn; sig["result"] *)
}.

(** What the outside answers during one evaluation of the pipeline. *)
Record World : Type := {
  balance_before : ext (option Z);  (* getBalance: lamports, if the reply is well formed *)
  claim_trade : Trade;
  balance_after : ext (option Z);
  buy_trade : Q -> Trade;
  burn_world : BurnWorld;
  now_claim : string;               (* now_iso() at the push of each stage *)
  now_buyback : string;
  now_burn : string
}.

(** ** Chain client and trade executor *)

Definition get_balance_sol (answer : ext (option Z)) : Q :=
  match answer with
  | ExtOk (Some lamports) => inject_Z lamports / inject_Z LAMPORTS_PER_SOL
  | ExtOk None => 0      (* RuntimeError("Invalid RPC response"), caught *)
  | ExtErr _ => 0        (* caught, logged *)
  end.

Definition _send_portal_tx_and_submit (cfg : Settings) (answer : ext RpcReply)
    : result string :=
  if negb (nonempty (WALLET_PRIVATE_KEY cfg)) then
    Raise (Exception "WALLET_PRIVATE_KEY not configured")
  else
    (* try ... except Exception as e: print(...); raise *)
    rbind (of_ext answer) (fun r =>
      match reply_result r with
      | Some sig =>
          if nonempty sig then Ok sig
          else Raise (Exception ("Transaction failed: " ++ reply_error r))
      | None => Raise (Exception ("Transaction failed: " ++ reply_error r))
      end).

Definition pump_portal_trade_local (cfg : Settings) (t : Trade) : result string :=
  rbind (of_ext (portal t)) (fun _ => _send_portal_tx_and_submit cfg (submit t)).

Definition claim_creator_fees (cfg : Settings) (w : World) : result (string * Q) :=
  if negb (nonempty (WALLET_ADDRESS cfg)) then
    Raise (Exception "Missing WALLET_ADDRESS")
  else
    let before := get_balance_sol (balance_before w) in
    rbind (pump_portal_trade_local cfg (claim_trade w)) (fun sig =>
      let after := get_balance_sol (balance_after w) in
      let claimed := Py.max 0 (Py.round (after - before) 6) in
      Ok (sig, claimed)).

Definition buy_back_sol (cfg : Settings) (w : World) (amount_sol : Q) : result string :=
  if Qle_bool amount_sol 0 then
    Raise (Exception "amount_sol must be > 0")
  else
    pump_portal_trade_local cfg (buy_trade w amount_sol).

(** ** Burn executor ([services/burn_tokens.py]) *)

(** Running the module body at [from services.burn_tokens import burn_tokens]. *)
Definition import_burn_tokens (cfg : Settings) (bw : BurnWorld) : result unit :=
  rbind (of_ext (library_imports bw)) (fun _ =>
    if negb (nonempty (SOLANA_RPC_URL cfg) && nonempty (WALLET_PRIVATE_KEY cfg)
             && nonempty (TOKEN_MINT cfg)) then
      Raise (SystemExit "Missing required .env: SOLANA_RPC_URL, WALLET_PRIVATE_KEY, TOKEN_MINT")
    else
      of_ext (mint_pubkey bw)).

Definition load_keypair_from_base58 (bw : BurnWorld) : result unit :=
  match keypair bw with
  | ExtOk k => Ok k
  | ExtErr e => Raise (SystemExit ("Invalid WALLET_PRIVATE_KEY base58: " ++ e))
  end.

Definition get_mint_decimals (cfg : Settings) (bw : BurnWorld) : result Z :=
  rbind (of_ext (token_supply bw)) (fun mi =>
    match mi with
    | Some decimals => Ok decimals
    | None => Raise (Exception ("Cannot fetch mint supply/decimals for " ++ TOKEN_MINT cfg))
    end).

Definition read_token_balance_raw (bw : BurnWorld) : result Z :=
  rbind (of_ext (account_info bw)) (fun ai =>
    match ai with
    | Some amount => Ok amount
    | None => Ok 0%Z
    end).

Definition ensure_ata (bw : BurnWorld) : result unit :=
  rbind (of_ext (ata_info bw)) (fun present =>
    if present then Ok tt else of_ext (create_ata bw)).

Definition burn_tokens (cfg : Settings) (bw : BurnWorld)
    (amount_tokens : option Q) (burn_all : bool) : result string :=
  rbind (load_keypair_from_base58 bw) (fun _ =>
  rbind (get_mint_decimals cfg bw) (fun decimals =>
  let factor := Qpower 10 decimals in
  rbind (ensure_ata bw) (fun _ =>
  rbind (read_token_balance_raw bw) (fun raw_bal =>
  if (raw_bal <=? 0)%Z then
    Raise (SystemExit "Nothing to burn: token balance is 0")
  else
    rbind
      (if burn_all then Ok raw_bal
       else
         match amount_tokens with
         | None => Raise (SystemExit "--amount is required unless --all is set")
         | Some amount =>
             let raw_to_burn := Py.int (amount * factor) in
             if (raw_to_burn <=? 0)%Z then
               Raise (SystemExit "Amount after decimals rounds to zero")
             else if (raw_bal <? raw_to_burn)%Z then
               Raise (SystemExit "Not enough balance to burn the requested amount")
             else Ok raw_to_burn
         end)
      (fun raw_to_burn => of_ext (send_burn bw raw_to_burn)))))).

(** ** Actions of [main.py] *)

Definition burn_recently_bought (cfg : Settings) (bw : BurnWorld) (amount_sol : Q)
    : result (option string) :=
  rcatch
    (rbind (import_burn_tokens cfg bw) (fun _ =>
     rbind (burn_tokens cfg bw None true) (fun sig =>
     Ok (Some sig))))
    (fun _ => Ok None).     (* print(...); return None *)

(** ** The goal pipeline *)

Section Pipeline.

(** How an f-string prints a float; the text plays no part in control. *)
Variable str_float : Q -> string.

Local Open Scope py_scope.

(** [int(mc // GOAL_STEP)] with [mc = float(STATE["market_cap_usd"] or 0.0)]. *)
Definition current_bucket (st : State) : Z :=
  let mc := Py.or_ (market_cap_usd st) 0 in
  Py.int (Py.floordiv mc GOAL_STEP).

(** [round(claimed_sol * 0.25, 6)] *)
Definition buy_amount_of (claimed_sol : Q) : Q := Py.round (claimed_sol * 0.25) 6.

(** Stage 1, the first [try] block; [Some claimed_sol] when the stage
    completes, [None] when its handler returns from the function. *)
Definition claim_stage (cfg : Settings) (w : World) : M State (option Q) :=
  try_except
    (r <- lift (claim_creator_fees cfg w) ;;
     let '(claim_sig, claimed_sol) := r in
     modify (push_tx (now_claim w) "claim" claimed_sol
               ("Claimed creator fees: " ++ str_float claimed_sol ++ " SOL")
               (Some claim_sig)) ;;
     ret (Some claimed_sol))
    (fun e =>
     modify (push_tx (now_claim w) "claim" 0 ("Claim failed: " ++ e) None) ;;
     ret None).

(** Stage 2, the second [try] block; [true] when the stage completes. *)
Definition buyback_stage (cfg : Settings) (w : World) (buy_amount : Q) : M State bool :=
  try_except
    (buy_sig <- lift (buy_back_sol cfg w buy_amount) ;;
     modify (push_tx (now_buyback w) "buyback" buy_amount
               ("Executed buy-back of " ++ str_float buy_amount ++ " SOL")
               (Some buy_sig)) ;;
     modify (fun st =>
       set_buybacks_usd (buybacks_usd st + buy_amount * Py.or_ (price_usd st) 0) st) ;;
     ret true)
    (fun e =>
     modify (push_tx (now_buyback w) "buyback" 0 ("Buyback failed: " ++ e) None) ;;
     ret false).

(** Stage 3, the third [try] block. *)
Definition burn_stage (cfg : Settings) (w : World) (buy_amount : Q) : M State unit :=
  try_except
    (burn_sig <- lift (burn_recently_bought cfg (burn_world w) buy_amount) ;;
     modify (push_tx (now_burn w) "burn" buy_amount
               ("Burned tokens bought with " ++ str_float buy_amount ++ " SOL")
               burn_sig) ;;
     modify (fun st =>
       set_burned_usd (burned_usd st + buy_amount * Py.or_ (price_usd st) 0) st) ;;
     modify (fun st =>
       set_supply_burned_pct
         (Py.round (Py.min 100 (supply_burned_pct st + 0.05)) 4) st))
    (fun e =>
     modify (push_tx (now_burn w) "burn" 0 ("Burn failed: " ++ e) None)).

(** The three stages, after the bucket has been advanced. *)
Definition run_stages (cfg : Settings) (w : World) : M State unit :=
  claimed <- claim_stage cfg w ;;
  match claimed with
  | None => ret tt
  | Some claimed_sol =>
      let buy_amount := buy_amount_of claimed_sol in
      if Qle_bool buy_amount 0 then
        modify (push_tx (now_buyback w) "buyback" 0 "No buyback (claimed 0 SOL)" None)
      else
        bought <- buyback_stage cfg w buy_amount ;;
        if bought then burn_stage cfg w buy_amount else ret tt
  end.

Definition process_goal_if_crossed (cfg : Settings) (w : World) : M State unit :=
  fun st =>
    if (current_bucket st <=? last_goal_bucket st)%Z then ret tt st
    else
      (modify (set_last_goal_bucket (current_bucket st)) ;;
       run_stages cfg w) st.

End Pipeline.

(** ** Market data *)

Local Open Scope py_scope.

Definition _HELIUS_CACHE_TTL : Q := 20.

(** The module globals: [STATE] and the time of the last good refresh. *)
Record Globals : Type := {
  STATE : State;
  _last_helius_t : Q
}.

Definition GLOBALS0 : Globals := {| STATE := STATE0; _last_helius_t := 0 |}.

Definition on_STATE (f : State -> State) (g : Globals) : Globals :=
  {| STATE := f (STATE g); _last_helius_t := _last_helius_t g |}.

Definition set_last_helius_t (t : Q) (g : Globals) : Globals :=
  {| STATE := STATE g; _last_helius_t := t |}.

(** A computation on [STATE] run inside the module globals. *)
Definition with_STATE {A} (m : M State A) : M Globals A :=
  fun g =>
    let '(st', r) := m (STATE g) in
    ({| STATE := st'; _last_helius_t := _last_helius_t g |}, r).

(** [token_info] of the Helius [getAsset] reply after the chain of
    [.get(...) or {}]: each field as found, [None] when missing or null. *)
Record TokenInfo : Type := {
  price_per_token : option Q;
  supply : option Q;
  decimals : option Z
}.

Definition opt_or {A} (o : option A) (d : A) : A :=
  match o with Some a => a | None => d end.

(** [now] is [time.time()]; [answer] is the POST to Helius with
    [raise_for_status], [r.json()] and the [float]/[int] conversions, any of
    which may raise. *)
Definition refresh_market_data (cfg : Settings) (now : Q) (answer : ext TokenInfo)
    : M Globals unit :=
  fun g =>
    if negb (Qle_bool _HELIUS_CACHE_TTL (now - _last_helius_t g)) then ret tt g
    else if negb (nonempty (HELIUS_API_KEY cfg)) then ret tt g
    else
      try_except
        (info <- lift (of_ext answer) ;;
         let price := Py.or_ (opt_or (price_per_token info) 0) 0 in
         let adjusted_supply :=
           Py.or_ (opt_or (supply info) 0) 0
           / Qpower 10 (opt_or (decimals info) 0%Z) in
         let mc := price * adjusted_supply in
         modify (on_STATE (set_price_usd (Py.round price 8))) ;;
         modify (on_STATE (set_market_cap_usd (Py.round mc 2))) ;;
         modify (set_last_helius_t now))
        (fun e => ret tt)    (* print(f"[helius] warn: {e}") *)
        g.

(** ** The dashboard read *)

Module Dashboard.
Record t : Type := {
  price_usd : Q;
  volume_change_pct : Q;
  buybacks_usd : Q;
  burned_usd : Q;
  market_cap_usd : Q;
  next_goal_usd : Q;
  next_goal_progress_pct : Q;
  supply_burned_pct : Q;
  transactions : list TransactionRecord;
  token_mint : string
}.
End Dashboard.

(** [(int(mc // GOAL_STEP)) * GOAL_STEP] *)
Definition bucket_start (mc : Q) : Q :=
  inject_Z (Py.int (Py.floordiv mc GOAL_STEP)) * GOAL_STEP.

Definition progress_pct (mc : Q) : Q :=
  if Qle_bool GOAL_STEP 0 then 0
  else Py.max 0 (Py.min 100 ((mc - bucket_start mc) / GOAL_STEP * 100)).

(** The body of [get_dashboard] after the two calls. *)
Definition snapshot (cfg : Settings) (st : State) : Dashboard.t :=
  let mc := Py.or_ (market_cap_usd st) 0 in
  let next_goal := bucket_start mc + GOAL_STEP in
  {| Dashboard.price_usd := price_usd st;
     Dashboard.volume_change_pct := volume_change_pct st;
     Dashboard.buybacks_usd := buybacks_usd st;
     Dashboard.burned_usd := burned_usd st;
     Dashboard.market_cap_usd := mc;
     Dashboard.next_goal_usd := next_goal;
     Dashboard.next_goal_progress_pct := Py.round (progress_pct mc) 2;
     Dashboard.supply_burned_pct := supply_burned_pct st;
     Dashboard.transactions := tx st;
     Dashboard.token_mint := TOKEN_MINT cfg |}.

Definition get_dashboard (str_float : Q -> string) (cfg : Settings) (now : Q)
    (helius : ext TokenInfo) (w : World) : M Globals Dashboard.t :=
  refresh_market_data cfg now helius ;;
  with_STATE (process_goal_if_crossed str_float cfg w) ;;
  gets (fun g => snapshot cfg (STATE g)).

(** [POST /simulate/bump-mc] *)
Definition bump_market_cap (delta_usd : Q) (st : State) : State :=
  set_market_cap_usd (market_cap_usd st + delta_usd) st.

(** ** Requests over the process lifetime *)

(** The two endpoints that touch the state. *)
Inductive request : Type :=
| GetDashboard (now : Q) (helius : ext TokenInfo) (w : World)
| BumpMc (delta_usd : Q).

(** The globals after a request is served, whether or not the handler
    raised. *)
Definition serve (str_float : Q -> string) (cfg : Settings) (g : Globals)
    (r : request) : Globals :=
  match r with
  | GetDashboard now helius w => fst (get_dashboard str_float cfg now helius w g)
  | BumpMc delta_usd => on_STATE (bump_market_cap delta_usd) g
  end.

Definition serve_all (str_float : Q -> string) (cfg : Settings)
    (rs : list request) (g : Globals) : Globals :=
  fold_left (serve str_float cfg) rs g.

(** ** Vocabulary of the statements *)

(** The market cap sits on a threshold. *)
Definition multiple_of_goal_step (mc : Q) : Prop :=
  exists k : Z, mc == inject_Z k * GOAL_STEP.

(** The arguments of one [push_tx] call, with the clock reading. *)
Record PushArgs : Type := {
  arg_now : string;
  arg_kind : string;
  arg_amount_sol : Q;
  arg_desc : string;
  arg_sig : option string
}.

Definition tx_of (a : PushArgs) : TransactionRecord :=
  make_tx (arg_now a) (arg_kind a) (arg_amount_sol a) (arg_desc a) (arg_sig a).

Definition push (st : State) (a : PushArgs) : State :=
  push_tx (arg_now a) (arg_kind a) (arg_amount_sol a) (arg_desc a) (arg_sig a) st.

(** A run of [push_tx] calls, the first of the list first. *)
Definition push_all (calls : list PushArgs) (st : State) : State :=
  fold_left push calls st.

(** How many records of a kind a list holds. *)
Definition count_kind (k : string) (l : list TransactionRecord) : nat :=
  List.length (filter (fun r => String.eqb (kind r) k) l).

(** A result that is not a [SystemExit]. *)
Definition no_exit {A} (r : result A) : Prop :=
  match r with
  | Raise (SystemExit _) => False
  | _ => True
  end.

(** The state each stage leaves when its [try] body runs to the end. *)
Definition claimed_state (str_float : Q -> string) (w : World)
    (claim_sig : string) (claimed_sol : Q) (st : State) : State :=
  push_tx (now_claim w) "claim" claimed_sol
    ("Claimed creator fees: " ++ str_float claimed_sol ++ " SOL") (Some claim_sig) st.

Definition bought_state (str_float : Q -> string) (w : World)
    (buy_sig : string) (buy_amount : Q) (st : State) : State :=
  let st1 := push_tx (now_buyback w) "buyback" buy_amount
    ("Executed buy-back of " ++ str_float buy_amount ++ " SOL") (Some buy_sig) st in
  set_buybacks_usd (buybacks_usd st1 + buy_amount * Py.or_ (price_usd st1) 0) st1.

Definition burned_state (str_float : Q -> string) (w : World)
    (burn_sig : option string) (buy_amount : Q) (st : State) : State :=
  let st1 := push_tx (now_burn w) "burn" buy_amount
    ("Burned tokens bought with " ++ str_float buy_amount ++ " SOL") burn_sig st in
  let st2 := set_burned_usd (burned_usd st1 + buy_amount * Py.or_ (price_usd st1) 0) st1 in
  set_supply_burned_pct (Py.round (Py.min 100 (supply_burned_pct st2 + 0.05)) 4) st2.

(** The ways the three stages can end, as a relation between the answers of
    the world and the state and result the stages leave. *)
Inductive stages_end (str_float : Q -> string) (cfg : Settings) (w : World)
    (st : State) : State * result unit -> Prop :=
| end_claim_failed msg :
    claim_creator_fees cfg w = Raise (Exception msg) ->
    stages_end str_float cfg w st
      (push_tx (now_claim w) "claim" 0 ("Claim failed: " ++ msg) None st, Ok tt)
| end_no_buyback claim_sig claimed_sol :
    claim_creator_fees cfg w = Ok (claim_sig, claimed_sol) ->
    buy_amount_of claimed_sol <= 0 ->
    stages_end str_float cfg w st
      (push_tx (now_buyback w) "buyback" 0 "No buyback (claimed 0 SOL)" None
         (claimed_state str_float w claim_sig claimed_sol st), Ok tt)
| end_buy_failed claim_sig claimed_sol msg :
    claim_creator_fees cfg w = Ok (claim_sig, claimed_sol) ->
    0 < buy_amount_of claimed_sol ->
    buy_back_sol cfg w (buy_amount_of claimed_sol) = Raise (Exception msg) ->
    stages_end str_float cfg w st
      (push_tx (now_buyback w) "buyback" 0 ("Buyback failed: " ++ msg) None
         (claimed_state str_float w claim_sig claimed_sol st), Ok tt)
| end_burn_returned claim_sig claimed_sol buy_sig burn_sig :
    claim_creator_fees cfg w = Ok (claim_sig, claimed_sol) ->
    0 < buy_amount_of claimed_sol ->
    buy_back_sol cfg w (buy_amount_of claimed_sol) = Ok buy_sig ->
    burn_recently_bought cfg (burn_world w) (buy_amount_of claimed_sol) = Ok burn_sig ->
    stages_end str_float cfg w st
      (burned_state str_float w burn_sig (buy_amount_of claimed_sol)
         (bought_state str_float w buy_sig (buy_amount_of claimed_sol)
            (claimed_state str_float w claim_sig claimed_sol st)), Ok tt)
| end_burn_exit claim_sig claimed_sol buy_sig msg :
    claim_creator_fees cfg w = Ok (claim_sig, claimed_sol) ->
    0 < buy_amount_of claimed_sol ->
    buy_back_sol cfg w (buy_amount_of claimed_sol) = Ok buy_sig ->
    burn_recently_bought cfg (burn_world w) (buy_amount_of claimed_sol)
      = Raise (SystemExit msg) ->
    stages_end str_float cfg w st
      (bought_state str_float w buy_sig (buy_amount_of claimed_sol)
         (claimed_state str_float w claim_sig claimed_sol st),
       Raise (SystemExit msg)).

(** ** Sample settings, worlds and states *)

Module Sample.

(** A float printer standing in for Python's; the text is not inspected. *)
Definition str_float (x : Q) : string := "<float>".

Definition cfg : Settings := {|
  WALLET_ADDRESS := "wallet";
  WALLET_PRIVATE_KEY := "secret";
  SOLANA_RPC_URL := "https://api.mainnet-beta.solana.com";
  PRIORITY_FEE := 0.000001;
  TOKEN_MINT := "mint";
  HELIUS_API_KEY := "key"
|}.

(** The same settings without a Helius key. *)
Definition cfg_no_key : Settings := {|
  WALLET_ADDRESS := "wallet";
  WALLET_PRIVATE_KEY := "secret";
  SOLANA_RPC_URL := "https://api.mainnet-beta.solana.com";
  PRIORITY_FEE := 0.000001;
  TOKEN_MINT := "mint";
  HELIUS_API_KEY := ""
|}.

Definition trade_ok (sig : string) : Trade := {|
  portal := ExtOk tt;
  submit := ExtOk {| reply_result := Some sig; reply_error := "" |}
|}.

Definition trade_down : Trade := {|
  portal := ExtErr "503 Server Error";
  submit := ExtErr "unreachable"
|}.

(** A chain on which the wallet holds [raw_balance] raw units of the token. *)
Definition burn_world_with (raw_balance : Z) : BurnWorld := {|
  library_imports := ExtOk tt;
  mint_pubkey := ExtOk tt;
  keypair := ExtOk tt;
  token_supply := ExtOk (Some 6%Z);
  ata_info := ExtOk true;
  create_ata := ExtOk tt;
  account_info := ExtOk (Some raw_balance);
  send_burn := fun _ => ExtOk "BURN_SIG"
|}.

(** A chain whose RPC endpoint fails the first query of the burn. *)
Definition burn_world_rpc_down : BurnWorld := {|
  library_imports := ExtOk tt;
  mint_pubkey := ExtOk tt;
  keypair := ExtOk tt;
  token_supply := ExtErr "connection refused";
  ata_info := ExtOk true;
  create_ata := ExtOk tt;
  account_info := ExtOk (Some 1000%Z);
  send_burn := fun _ => ExtOk "BURN_SIG"
|}.

(** The claim moves the wallet from 1 SOL to 5 SOL; the buy goes through. *)
Definition world_with (bw : BurnWorld) : World := {|
  balance_before := ExtOk (Some 1000000000%Z);
  claim_trade := trade_ok "CLAIM_SIG";
  balance_after := ExtOk (Some 5000000000%Z);
  buy_trade := fun _ => trade_ok "BUY_SIG";
  burn_world := bw;
  now_claim := "2025-01-01T00:00:01+00:00";
  now_buyback := "2025-01-01T00:00:02+00:00";
  now_burn := "2025-01-01T00:00:03+00:00"
|}.

(** All three stages go through. *)
Definition world_ok : World := world_with (burn_world_with 1000).

(** The wallet holds none of the token when the burn starts. *)
Definition world_zero_balance : World := world_with (burn_world_with 0).

(** The burn's RPC query fails. *)
Definition world_burn_rpc_down : World := world_with burn_world_rpc_down.

(** The claim goes through but the balance does not move. *)
Definition world_nothing_claimed : World := {|
  balance_before := ExtOk (Some 1000000000%Z);
  claim_trade := trade_ok "CLAIM_SIG";
  balance_after := ExtOk (Some 1000000000%Z);
  buy_trade := fun _ => trade_ok "BUY_SIG";
  burn_world := burn_world_with 1000;
  now_claim := "2025-01-01T00:00:01+00:00";
  now_buyback := "2025-01-01T00:00:02+00:00";
  now_burn := "2025-01-01T00:00:03+00:00"
|}.

(** Pump Portal is down. *)
Definition world_claim_down : World := {|
  balance_before := ExtOk (Some 1000000000%Z);
  claim_trade := trade_down;
  balance_after := ExtOk (Some 1000000000%Z);
  buy_trade := fun _ => trade_down;
  burn_world := burn_world_with 1000;
  now_claim := "2025-01-01T00:00:01+00:00";
  now_buyback := "2025-01-01T00:00:02+00:00";
  now_burn := "2025-01-01T00:00:03+00:00"
|}.

(** Fresh state with a price of 2 USD and a market cap of 250,000 USD: two
    thresholds above the last processed bucket. *)
Definition state_250k : State :=
  set_price_usd 2 (set_market_cap_usd 250000 STATE0).

(** Market cap one dollar above the first threshold, bucket 1 processed. *)
Definition state_100001 : State :=
  set_last_goal_bucket 1 (set_market_cap_usd 100001 STATE0).

Definition globals_250k : Globals := {| STATE := state_250k; _last_helius_t := 0 |}.

Definition globals_100001 : Globals :=
  {| STATE := state_100001; _last_helius_t := 0 |}.

Definition token_info : TokenInfo := {|
  price_per_token := Some 0.000123456789;
  supply := Some 1000000000000000;
  decimals := Some 6%Z
|}.

Definition args (n : string) : PushArgs := {|
  arg_now := n; arg_kind := "claim"; arg_amount_sol := 1;
  arg_desc := "record " ++ n; arg_sig := None
|}.

End Sample.

(** ** The command line of the burn script *)

(** What [argparse] hands to [main]: the two options form a required,
    mutually exclusive group.  [--amount] carries its text as [Decimal]
    reads it, [None] when [Decimal] rejects the text. *)
Inductive BurnArgs : Type :=
| ArgAll
| ArgAmount (amount : option Q).

(** [main()] of [services/burn_tokens.py]; the final [print] is left out. *)
Definition main (cfg : Settings) (bw : BurnWorld) (args : BurnArgs) : result unit :=
  rbind
    (match args with
     | ArgAll => burn_tokens cfg bw None true
     | ArgAmount (Some amt) => burn_tokens cfg bw (Some amt) false
     | ArgAmount None => Raise (Exception "decimal.InvalidOperation")
     end)
    (fun sig => Ok tt).

(** ** More vocabulary *)

(** A run of [POST /simulate/bump-mc] calls, the first of the list first. *)
Definition bump_all (deltas : list Q) (st : State) : State :=
  fold_left (fun st delta_usd => bump_market_cap delta_usd st) deltas st.

Definition sum (l : list Q) : Q := fold_right Qplus 0 l.

(** A record as [push_tx] builds them inside the pipeline: one of the three
    kinds, a status that follows the truth value of the signature, and an
    amount that is not negative. *)
Definition well_formed (r : TransactionRecord) : Prop :=
  (kind r = "claim" \/ kind r = "buyback" \/ kind r = "burn") /\
  status r = (if Py.truthy_str (signature r) then "confirmed" else "recorded") /\
  0 <= amount_sol r.

(** ** Further sample inputs *)

Module Cases.

(** The balance query after the claim times out. *)
Definition world_after_query_fails : World := {|
  balance_before := ExtOk (Some 1000000000%Z);
  claim_trade := Sample.trade_ok "CLAIM_SIG";
  balance_after := ExtErr "timeout";
  buy_trade := fun _ => Sample.trade_ok "BUY_SIG";
  burn_world := Sample.burn_world_with 1000;
  now_claim := "2025-01-01T00:00:01+00:00";
  now_buyback := "2025-01-01T00:00:02+00:00";
  now_burn := "2025-01-01T00:00:03+00:00"
|}.

Definition cfg_no_address : Settings := {|
  WALLET_ADDRESS := "";
  WALLET_PRIVATE_KEY := "secret";
  SOLANA_RPC_URL := "https://api.mainnet-beta.solana.com";
  PRIORITY_FEE := 0.000001;
  TOKEN_MINT := "mint";
  HELIUS_API_KEY := "key"
|}.

Definition cfg_no_private_key : Settings := {|
  WALLET_ADDRESS := "wallet";
  WALLET_PRIVATE_KEY := "";
  SOLANA_RPC_URL := "https://api.mainnet-beta.solana.com";
  PRIORITY_FEE := 0.000001;
  TOKEN_MINT := "mint";
  HELIUS_API_KEY := "key"
|}.

(** A reply of Helius that carries a supply but no price. *)
Definition token_info_no_price : TokenInfo := {|
  price_per_token := None;
  supply := Some 1000000000000000;
  decimals := Some 6%Z
|}.

(** One read that crosses into bucket 2 with every stage going through. *)
Definition requests : list request :=
  [BumpMc 110000; GetDashboard 0 (ExtErr "no reply") Sample.world_ok;
   GetDashboard 1 (ExtErr "no reply") Sample.world_zero_balance].

End Cases.

(** * Properties *)

(** ** Numbers *)

Lemma or_zero_eq (x : Q) : Py.or_ x 0 == x.
Proof.
  unfold Py.or_, Py.truthy.
  destruct (Qeq_bool x 0) eqn:E; simpl; [|reflexivity].
  apply Qeq_bool_iff in E. symmetry. exact E.
Qed.

Lemma int_inject_Z (z : Z) : Py.int (inject_Z z) = z.
Proof. unfold Py.int. simpl. apply Z.quot_1_r. Qed.

Lemma max_lower (a b : Q) : a <= Py.max a b.
Proof.
  unfold Py.max. destruct (Qle_bool b a) eqn:E; [apply Qle_refl|].
  destruct (Qlt_le_dec a b) as [H|H]; [apply Qlt_le_weak; exact H|].
  apply Qle_bool_iff in H. congruence.
Qed.

Lemma max_upper (a b c : Q) : a <= c -> b <= c -> Py.max a b <= c.
Proof. unfold Py.max. destruct (Qle_bool b a); auto. Qed.

Lemma min_upper (a b : Q) : Py.min a b <= a.
Proof.
  unfold Py.min. destruct (Qle_bool a b) eqn:E; [apply Qle_refl|].
  destruct (Qlt_le_dec b a) as [H|H]; [apply Qlt_le_weak; exact H|].
  apply Qle_bool_iff in H. congruence.
Qed.

(** Rounding to the nearest integer stays between any two integers that
    bracket the argument. *)
Lemma round_half_even_between (x : Q) (lo hi : Z) :
  inject_Z lo <= x -> x <= inject_Z hi ->
  (lo <= Py.round_half_even x <= hi)%Z.
Proof.
  intros Hlo Hhi.
  assert (Hf : (lo <= Qfloor x)%Z).
  { rewrite <- (Qfloor_Z lo). apply Qfloor_resp_le. exact Hlo. }
  assert (Hc : (Qfloor x <= hi)%Z).
  { rewrite <- (Qfloor_Z hi). apply Qfloor_resp_le. exact Hhi. }
  assert (Hstep : 0 < x - inject_Z (Qfloor x) -> (Qfloor x + 1 <= hi)%Z).
  { intros Hpos.
    destruct (Z.eq_dec (Qfloor x) hi) as [E|NE]; [|lia].
    exfalso. rewrite E in Hpos. lra. }
  unfold Py.round_half_even.
  destruct (Qcompare (x - inject_Z (Qfloor x)) (1 # 2)) eqn:C.
  - apply Qeq_alt in C.
    destruct (Z.even (Qfloor x)); [lia|].
    split; [lia|]. apply Hstep. lra.
  - lia.
  - apply Qgt_alt in C. split; [lia|]. apply Hstep. lra.
Qed.

Lemma round_half_even_small (x : Q) :
  0 <= x -> x < 1 # 2 -> Py.round_half_even x = 0%Z.
Proof.
  intros H0 H1.
  assert (Hf : Qfloor x = 0%Z).
  { pose proof (Qfloor_le x) as Ha. pose proof (Qlt_floor x) as Hb.
    rewrite inject_Z_plus in Hb. change (inject_Z 1) with 1 in Hb.
    assert (Hu : (Qfloor x < 1)%Z).
    { rewrite Zlt_Qlt. change (inject_Z 1) with 1. lra. }
    assert (Hl : (-1 < Qfloor x)%Z).
    { rewrite Zlt_Qlt. change (inject_Z (-1)) with (-1). lra. }
    lia. }
  unfold Py.round_half_even. rewrite Hf.
  destruct (Qcompare (x - inject_Z 0) (1 # 2)) eqn:C; try reflexivity.
  apply Qgt_alt in C. change (inject_Z 0) with 0 in C. lra.
Qed.

Lemma round_half_even_zero_inv (x : Q) :
  Py.round_half_even x = 0%Z -> x <= 1 # 2.
Proof.
  unfold Py.round_half_even.
  pose proof (Qlt_floor x) as Hb. rewrite inject_Z_plus in Hb.
  change (inject_Z 1) with 1 in Hb.
  destruct (Qcompare (x - inject_Z (Qfloor x)) (1 # 2)) eqn:C; intros E.
  - apply Qeq_alt in C.
    destruct (Z.even (Qfloor x)) eqn:Ev.
    + rewrite E in C. change (inject_Z 0) with 0 in C. lra.
    + assert (Qfloor x = (-1)%Z) by lia.
      rewrite H in C. change (inject_Z (-1)) with (-1) in C. lra.
  - apply Qlt_alt in C. rewrite E in C. change (inject_Z 0) with 0 in C. lra.
  - assert (Qfloor x = (-1)%Z) by lia.
    rewrite H in Hb. change (inject_Z (-1)) with (-1) in Hb. lra.
Qed.

Lemma pow10_pos (n : nat) : 0 < Py.pow10 n.
Proof.
  unfold Py.pow10. change 0 with (inject_Z 0). rewrite <- Zlt_Qlt.
  apply Z.pow_pos_nonneg; lia.
Qed.

(** [round(x, n)] is zero exactly when the scaled value rounds to zero. *)
Lemma round_zero_iff (x : Q) (n : nat) :
  Py.round x n == 0 <-> Py.round_half_even (x * Py.pow10 n) = 0%Z.
Proof.
  unfold Py.round. pose proof (pow10_pos n) as Hp.
  generalize dependent (Py.round_half_even (x * Py.pow10 n)).
  generalize dependent (Py.pow10 n).
  intros p Hp z. split; intros H.
  - assert (E : inject_Z z == (inject_Z z / p) * p) by (field; lra).
    rewrite H in E. rewrite Qmult_0_l in E.
    apply (proj1 (inject_Z_injective z 0)). exact E.
  - rewrite H. unfold Qdiv. change (inject_Z 0) with 0. ring.
Qed.

Lemma round_half_even_compat (x y : Q) :
  x == y -> Py.round_half_even x = Py.round_half_even y.
Proof.
  intros E. unfold Py.round_half_even.
  rewrite (Qfloor_comp x y E).
  assert (C : Qcompare (x - inject_Z (Qfloor y)) (1 # 2)
              = Qcompare (y - inject_Z (Qfloor y)) (1 # 2)).
  { apply Qcompare_comp; [rewrite E|]; reflexivity. }
  rewrite C. reflexivity.
Qed.

Lemma round_half_even_Z (z : Z) : Py.round_half_even (inject_Z z) = z.
Proof.
  unfold Py.round_half_even. rewrite Qfloor_Z.
  assert (C : Qcompare (inject_Z z - inject_Z z) (1 # 2) = Lt).
  { apply (proj1 (Qlt_alt _ _)). lra. }
  rewrite C. reflexivity.
Qed.

Lemma round_compat (x y : Q) (n : nat) : x == y -> Py.round x n == Py.round y n.
Proof.
  intros E. unfold Py.round.
  rewrite (round_half_even_compat (x * Py.pow10 n) (y * Py.pow10 n)).
  - reflexivity.
  - rewrite E. reflexivity.
Qed.

(** A value already on the grid of [n] decimals is its own rounding. *)
Lemma round_on_grid (x : Q) (n : nat) (z : Z) :
  x * Py.pow10 n == inject_Z z -> Py.round x n == x.
Proof.
  intros H. unfold Py.round.
  rewrite (round_half_even_compat _ _ H), round_half_even_Z.
  pose proof (pow10_pos n) as Hp.
  generalize dependent (Py.pow10 n). intros p H Hp.
  rewrite <- H. field. intros E. rewrite E in Hp. lra.
Qed.

Lemma min_100_below (y : Q) : y <= 100 -> Py.min 100 y == y.
Proof.
  intros H. unfold Py.min.
  destruct (Qle_bool 100 y) eqn:E; [|reflexivity].
  apply Qle_bool_iff in E. lra.
Qed.

(** ** Progress toward the next goal *)

Lemma bucket_start_floor (mc : Q) :
  bucket_start mc = inject_Z (Qfloor (mc / GOAL_STEP)) * GOAL_STEP.
Proof. unfold bucket_start, Py.floordiv. rewrite int_inject_Z. reflexivity. Qed.

Lemma offset_range (mc : Q) :
  0 <= mc - bucket_start mc /\ mc - bucket_start mc < GOAL_STEP.
Proof.
  rewrite bucket_start_floor.
  pose proof (Qfloor_le (mc / GOAL_STEP)) as Ha.
  pose proof (Qlt_floor (mc / GOAL_STEP)) as Hb.
  rewrite inject_Z_plus in Hb. change (inject_Z 1) with 1 in Hb.
  generalize dependent (inject_Z (Qfloor (mc / GOAL_STEP))). intros f Ha Hb.
  assert (E : mc == mc / GOAL_STEP * GOAL_STEP) by (unfold GOAL_STEP; field).
  unfold GOAL_STEP in *.
  generalize dependent (mc / 100000). intros q Ha Hb E.
  split; lra.
Qed.

Lemma progress_pct_range (mc : Q) : 0 <= progress_pct mc /\ progress_pct mc <= 100.
Proof.
  unfold progress_pct.
  destruct (Qle_bool GOAL_STEP 0); [split; lra|].
  split; [apply max_lower|].
  apply max_upper; [lra|apply min_upper].
Qed.

(** Inside a bucket the clamp is idle: the progress is the offset into the
    bucket, in thousandths. *)
Lemma progress_pct_offset (mc : Q) :
  progress_pct mc == (mc - bucket_start mc) * (1 # 1000).
Proof.
  destruct (offset_range mc) as [H0 H1].
  unfold progress_pct. change (Qle_bool GOAL_STEP 0) with false. cbv iota.
  unfold GOAL_STEP in *.
  generalize dependent (mc - bucket_start mc). intros off H0 H1.
  assert (E : off / 100000 * 100 == off * (1 # 1000)) by field.
  unfold Py.min.
  destruct (Qle_bool 100 (off / 100000 * 100)) eqn:Emin.
  - apply Qle_bool_iff in Emin. rewrite E in Emin. lra.
  - unfold Py.max.
    destruct (Qle_bool (off / 100000 * 100) 0) eqn:Emax; [|exact E].
    apply Qle_bool_iff in Emax. rewrite E in Emax. lra.
Qed.

Lemma multiple_offset (mc : Q) :
  multiple_of_goal_step mc <-> mc - bucket_start mc == 0.
Proof.
  rewrite bucket_start_floor. split.
  - intros [k Hk].
    assert (Hq : mc / GOAL_STEP == inject_Z k).
    { rewrite Hk. unfold GOAL_STEP. field. }
    rewrite (Qfloor_comp _ _ Hq), Qfloor_Z. rewrite Hk. ring.
  - intros H. exists (Qfloor (mc / GOAL_STEP)). lra.
Qed.

Lemma round_range_100 (p : Q) :
  0 <= p -> p <= 100 -> 0 <= Py.round p 2 /\ Py.round p 2 <= 100.
Proof.
  intros H0 H1. unfold Py.round.
  change (Py.pow10 2) with 100.
  destruct (round_half_even_between (p * 100) 0 10000) as [Ha Hb].
  - change (inject_Z 0) with 0. lra.
  - change (inject_Z 10000) with 10000. lra.
  - rewrite Zle_Qle in Ha, Hb.
    change (inject_Z 0) with 0 in Ha. change (inject_Z 10000) with 10000 in Hb.
    generalize dependent (inject_Z (Py.round_half_even (p * 100))).
    intros r Ha Hb. split.
    + apply Qle_shift_div_l; lra.
    + apply Qle_shift_div_r; lra.
Qed.

Lemma next_goal_progress_zero_below_5 (mc : Q) :
  mc - bucket_start mc < 5 -> Py.round (progress_pct mc) 2 == 0.
Proof.
  intros H. apply round_zero_iff. change (Py.pow10 2) with 100.
  destruct (offset_range mc) as [H0 _].
  pose proof (progress_pct_offset mc) as E.
  apply round_half_even_small; rewrite E; lra.
Qed.

Lemma next_goal_progress_zero_inv (mc : Q) :
  Py.round (progress_pct mc) 2 == 0 -> mc - bucket_start mc <= 5.
Proof.
  intros H. apply round_zero_iff in H. change (Py.pow10 2) with 100 in H.
  apply round_half_even_zero_inv in H.
  pose proof (progress_pct_offset mc) as E. rewrite E in H. lra.
Qed.

(** ** Which exceptions the executors can raise *)

Lemma no_exit_of_ext {A} (a : ext A) : no_exit (of_ext a).
Proof. destruct a; exact I. Qed.

Lemma no_exit_rbind {A B} (r : result A) (k : A -> result B) :
  no_exit r -> (forall a, no_exit (k a)) -> no_exit (rbind r k).
Proof. destruct r as [a|[m|m]]; simpl; auto. Qed.

Lemma send_portal_no_exit cfg answer : no_exit (_send_portal_tx_and_submit cfg answer).
Proof.
  unfold _send_portal_tx_and_submit.
  destruct (negb (nonempty (WALLET_PRIVATE_KEY cfg))); [exact I|].
  apply no_exit_rbind; [apply no_exit_of_ext|].
  intros r. destruct (reply_result r) as [sig|]; [|exact I].
  destruct (nonempty sig); exact I.
Qed.

Lemma trade_no_exit cfg t : no_exit (pump_portal_trade_local cfg t).
Proof.
  unfold pump_portal_trade_local.
  apply no_exit_rbind; [apply no_exit_of_ext|]. intros _. apply send_portal_no_exit.
Qed.

Lemma claim_no_exit cfg w : no_exit (claim_creator_fees cfg w).
Proof.
  unfold claim_creator_fees.
  destruct (negb (nonempty (WALLET_ADDRESS cfg))); [exact I|].
  apply no_exit_rbind; [apply trade_no_exit|]. intros sig. exact I.
Qed.

Lemma buy_no_exit cfg w amount : no_exit (buy_back_sol cfg w amount).
Proof.
  unfold buy_back_sol. destruct (Qle_bool amount 0); [exact I|apply trade_no_exit].
Qed.

(** A signature that came back from a submission is a non-empty string. *)
Lemma send_portal_sig cfg answer sig :
  _send_portal_tx_and_submit cfg answer = Ok sig -> nonempty sig = true.
Proof.
  unfold _send_portal_tx_and_submit.
  destruct (negb (nonempty (WALLET_PRIVATE_KEY cfg))); [discriminate|].
  destruct answer as [r|m]; simpl; [|discriminate].
  destruct (reply_result r) as [s|]; [|discriminate].
  destruct (nonempty s) eqn:E; [|discriminate].
  intros H. injection H as <-. exact E.
Qed.

Lemma trade_sig cfg t sig :
  pump_portal_trade_local cfg t = Ok sig -> nonempty sig = true.
Proof.
  unfold pump_portal_trade_local.
  destruct (portal t); simpl; [apply send_portal_sig|discriminate].
Qed.

Lemma buy_sig_nonempty cfg w amount sig :
  buy_back_sol cfg w amount = Ok sig -> nonempty sig = true.
Proof.
  unfold buy_back_sol. destruct (Qle_bool amount 0); [discriminate|apply trade_sig].
Qed.

(** [burn_recently_bought] swallows every [Exception]: what is left is a
    signature, [None], or a [SystemExit] on its way out. *)
Lemma burn_recently_bought_cases cfg bw amount :
  match rbind (import_burn_tokens cfg bw) (fun _ => burn_tokens cfg bw None true) with
  | Ok sig => burn_recently_bought cfg bw amount = Ok (Some sig)
  | Raise (Exception _) => burn_recently_bought cfg bw amount = Ok None
  | Raise (SystemExit e) => burn_recently_bought cfg bw amount = Raise (SystemExit e)
  end.
Proof.
  unfold burn_recently_bought.
  destruct (import_burn_tokens cfg bw) as [[]|[m|m]]; simpl; try reflexivity.
  destruct (burn_tokens cfg bw None true) as [sig|[m|m]]; reflexivity.
Qed.

Lemma burn_recently_bought_no_exception cfg bw amount msg :
  burn_recently_bought cfg bw amount <> Raise (Exception msg).
Proof.
  pose proof (burn_recently_bought_cases cfg bw amount) as H.
  destruct (rbind (import_burn_tokens cfg bw) (fun _ => burn_tokens cfg bw None true))
    as [sig|[m|m]]; rewrite H; discriminate.
Qed.

(** ** The stages, case by case *)

Section Stages.

Variable str_float : Q -> string.
Variable cfg : Settings.
Variable w : World.

Lemma claim_stage_raises e st :
  claim_creator_fees cfg w = Raise e ->
  exists msg, e = Exception msg /\
    claim_stage str_float cfg w st
    = (push_tx (now_claim w) "claim" 0 ("Claim failed: " ++ msg) None st, Ok None).
Proof.
  intros H. pose proof (claim_no_exit cfg w) as NE. rewrite H in NE.
  destruct e as [msg|msg]; [|contradiction].
  exists msg. split; [reflexivity|].
  unfold claim_stage, try_except, bind, lift. rewrite H. reflexivity.
Qed.

Lemma claim_stage_ok claim_sig claimed_sol st :
  claim_creator_fees cfg w = Ok (claim_sig, claimed_sol) ->
  claim_stage str_float cfg w st
  = (claimed_state str_float w claim_sig claimed_sol st, Ok (Some claimed_sol)).
Proof.
  intros H. unfold claim_stage, try_except, bind, lift. rewrite H. reflexivity.
Qed.

Lemma buyback_stage_raises buy_amount e st :
  buy_back_sol cfg w buy_amount = Raise e ->
  exists msg, e = Exception msg /\
    buyback_stage str_float cfg w buy_amount st
    = (push_tx (now_buyback w) "buyback" 0 ("Buyback failed: " ++ msg) None st, Ok false).
Proof.
  intros H. pose proof (buy_no_exit cfg w buy_amount) as NE. rewrite H in NE.
  destruct e as [msg|msg]; [|contradiction].
  exists msg. split; [reflexivity|].
  unfold buyback_stage, try_except, bind, lift. rewrite H. reflexivity.
Qed.

Lemma buyback_stage_ok buy_amount buy_sig st :
  buy_back_sol cfg w buy_amount = Ok buy_sig ->
  buyback_stage str_float cfg w buy_amount st
  = (bought_state str_float w buy_sig buy_amount st, Ok true).
Proof.
  intros H. unfold buyback_stage, try_except, bind, lift. rewrite H. reflexivity.
Qed.

Lemma burn_stage_returned buy_amount burn_sig st :
  burn_recently_bought cfg (burn_world w) buy_amount = Ok burn_sig ->
  burn_stage str_float cfg w buy_amount st
  = (burned_state str_float w burn_sig buy_amount st, Ok tt).
Proof.
  intros H. unfold burn_stage, try_except, bind, lift. rewrite H. reflexivity.
Qed.

Lemma burn_stage_exit buy_amount msg st :
  burn_recently_bought cfg (burn_world w) buy_amount = Raise (SystemExit msg) ->
  burn_stage str_float cfg w buy_amount st = (st, Raise (SystemExit msg)).
Proof.
  intros H. unfold burn_stage, try_except, bind, lift. rewrite H. reflexivity.
Qed.

End Stages.

(** ** One evaluation cycle *)

Section Cycle.

Variable str_float : Q -> string.
Variable cfg : Settings.
Variable w : World.

Lemma Qle_bool_false (a b : Q) : Qle_bool a b = false <-> b < a.
Proof.
  split; intros H.
  - destruct (Qlt_le_dec b a) as [L|L]; [exact L|].
    apply Qle_bool_iff in L. congruence.
  - destruct (Qle_bool a b) eqn:E; [|reflexivity].
    apply Qle_bool_iff in E. lra.
Qed.

Lemma run_stages_claim_raises e st :
  claim_creator_fees cfg w = Raise e ->
  exists msg, e = Exception msg /\
    run_stages str_float cfg w st
    = (push_tx (now_claim w) "claim" 0 ("Claim failed: " ++ msg) None st, Ok tt).
Proof.
  intros H. destruct (claim_stage_raises str_float cfg w e st H) as (msg & -> & E).
  exists msg. split; [reflexivity|].
  unfold run_stages, bind. rewrite E. reflexivity.
Qed.

Lemma run_stages_no_buyback claim_sig claimed_sol st :
  claim_creator_fees cfg w = Ok (claim_sig, claimed_sol) ->
  buy_amount_of claimed_sol <= 0 ->
  run_stages str_float cfg w st
  = (push_tx (now_buyback w) "buyback" 0 "No buyback (claimed 0 SOL)" None
       (claimed_state str_float w claim_sig claimed_sol st), Ok tt).
Proof.
  intros H Hle. apply Qle_bool_iff in Hle.
  unfold run_stages, bind. rewrite (claim_stage_ok str_float cfg w _ _ st H).
  rewrite Hle. reflexivity.
Qed.

Lemma run_stages_buy_raises claim_sig claimed_sol e st :
  claim_creator_fees cfg w = Ok (claim_sig, claimed_sol) ->
  0 < buy_amount_of claimed_sol ->
  buy_back_sol cfg w (buy_amount_of claimed_sol) = Raise e ->
  exists msg, e = Exception msg /\
    run_stages str_float cfg w st
    = (push_tx (now_buyback w) "buyback" 0 ("Buyback failed: " ++ msg) None
         (claimed_state str_float w claim_sig claimed_sol st), Ok tt).
Proof.
  intros H Hlt Hb. apply Qle_bool_false in Hlt.
  destruct (buyback_stage_raises str_float cfg w _ e
              (claimed_state str_float w claim_sig claimed_sol st) Hb)
    as (msg & -> & E).
  exists msg. split; [reflexivity|].
  unfold run_stages, bind. rewrite (claim_stage_ok str_float cfg w _ _ st H).
  rewrite Hlt, E. reflexivity.
Qed.

Lemma run_stages_bought claim_sig claimed_sol buy_sig st :
  claim_creator_fees cfg w = Ok (claim_sig, claimed_sol) ->
  0 < buy_amount_of claimed_sol ->
  buy_back_sol cfg w (buy_amount_of claimed_sol) = Ok buy_sig ->
  run_stages str_float cfg w st
  = burn_stage str_float cfg w (buy_amount_of claimed_sol)
      (bought_state str_float w buy_sig (buy_amount_of claimed_sol)
         (claimed_state str_float w claim_sig claimed_sol st)).
Proof.
  intros H Hlt Hb. apply Qle_bool_false in Hlt.
  unfold run_stages, bind. rewrite (claim_stage_ok str_float cfg w _ _ st H).
  rewrite Hlt.
  rewrite (buyback_stage_ok str_float cfg w _ _ _ Hb). reflexivity.
Qed.

(** The stages always end in one of the five ways. *)
Lemma run_stages_end st :
  stages_end str_float cfg w st (run_stages str_float cfg w st).
Proof.
  destruct (claim_creator_fees cfg w) as [[claim_sig claimed_sol]|e] eqn:Hc.
  - destruct (Qlt_le_dec 0 (buy_amount_of claimed_sol)) as [Hlt|Hle].
    + destruct (buy_back_sol cfg w (buy_amount_of claimed_sol)) as [buy_sig|e] eqn:Hb.
      * rewrite (run_stages_bought _ _ _ st Hc Hlt Hb).
        destruct (burn_recently_bought cfg (burn_world w) (buy_amount_of claimed_sol))
          as [burn_sig|[msg|msg]] eqn:Hburn.
        -- rewrite (burn_stage_returned str_float cfg w _ _ _ Hburn).
           eapply end_burn_returned; eassumption.
        -- exfalso. exact (burn_recently_bought_no_exception _ _ _ _ Hburn).
        -- rewrite (burn_stage_exit str_float cfg w _ _ _ Hburn).
           eapply end_burn_exit; eassumption.
      * destruct (run_stages_buy_raises _ _ _ st Hc Hlt Hb) as (msg & -> & E).
        rewrite E. eapply end_buy_failed; eassumption.
    + rewrite (run_stages_no_buyback _ _ st Hc Hle).
      eapply end_no_buyback; eassumption.
  - destruct (run_stages_claim_raises _ st Hc) as (msg & -> & E).
    rewrite E. apply end_claim_failed. exact Hc.
Qed.

(** The stages touch neither the bucket nor the market figures. *)
Lemma run_stages_frame st :
  let st' := fst (run_stages str_float cfg w st) in
  last_goal_bucket st' = last_goal_bucket st /\
  market_cap_usd st' = market_cap_usd st /\
  price_usd st' = price_usd st /\
  volume_change_pct st' = volume_change_pct st.
Proof.
  destruct (run_stages_end st); repeat split; reflexivity.
Qed.

Lemma firstn_push {A} (n : nat) (r : A) (old new l : list A) :
  old = firstn n (new ++ l) ->
  firstn n (r :: old) = firstn n ((r :: new) ++ l).
Proof.
  intros ->. destruct n as [|n]; [reflexivity|].
  rewrite <- app_comm_cons, !firstn_cons, firstn_firstn.
  replace (Nat.min n (S n)) with n by lia. reflexivity.
Qed.

Lemma firstn_push1 {A} (n : nat) (r : A) (l : list A) :
  firstn n (r :: l) = firstn n ([r] ++ l).
Proof. reflexivity. Qed.

Lemma tx_push_tx now k amount desc sig st :
  tx (push_tx now k amount desc sig st)
  = firstn 50 (make_tx now k amount desc sig :: tx st).
Proof. reflexivity. Qed.

Lemma tx_claimed_state claim_sig claimed_sol st :
  tx (claimed_state str_float w claim_sig claimed_sol st)
  = firstn 50 (make_tx (now_claim w) "claim" claimed_sol
                 ("Claimed creator fees: " ++ str_float claimed_sol ++ " SOL")
                 (Some claim_sig) :: tx st).
Proof. reflexivity. Qed.

Lemma tx_bought_state buy_sig buy_amount st :
  tx (bought_state str_float w buy_sig buy_amount st)
  = firstn 50 (make_tx (now_buyback w) "buyback" buy_amount
                 ("Executed buy-back of " ++ str_float buy_amount ++ " SOL")
                 (Some buy_sig) :: tx st).
Proof. reflexivity. Qed.

Lemma tx_burned_state burn_sig buy_amount st :
  tx (burned_state str_float w burn_sig buy_amount st)
  = firstn 50 (make_tx (now_burn w) "burn" buy_amount
                 ("Burned tokens bought with " ++ str_float buy_amount ++ " SOL")
                 burn_sig :: tx st).
Proof. reflexivity. Qed.

(** What the stages add on top of the log: one claim record, then at most a
    buyback record, then at most a burn record. *)
Lemma run_stages_appends st :
  exists new,
    tx (fst (run_stages str_float cfg w st)) = firstn 50 (new ++ tx st) /\
    count_kind "claim" new = 1%nat /\
    (List.length new <= 3)%nat.
Proof.
  destruct (run_stages_end st); cbn [fst]; eexists; (split; [|split]).
  - rewrite tx_push_tx. apply firstn_push1.
  - reflexivity.
  - simpl. lia.
  - rewrite tx_push_tx. apply firstn_push.
    rewrite tx_claimed_state. apply firstn_push1.
  - reflexivity.
  - simpl. lia.
  - rewrite tx_push_tx. apply firstn_push.
    rewrite tx_claimed_state. apply firstn_push1.
  - reflexivity.
  - simpl. lia.
  - rewrite tx_burned_state. apply firstn_push.
    rewrite tx_bought_state. apply firstn_push.
    rewrite tx_claimed_state. apply firstn_push1.
  - reflexivity.
  - simpl. lia.
  - rewrite tx_bought_state. apply firstn_push.
    rewrite tx_claimed_state. apply firstn_push1.
  - reflexivity.
  - simpl. lia.
Qed.

End Cycle.

(** ** Market data refresh *)

(** The figures a good reply puts into [STATE]. *)
Lemma refresh_market_data_cases cfg now answer g :
  refresh_market_data cfg now answer g = (g, Ok tt) \/
  exists info,
    answer = ExtOk info /\
    _HELIUS_CACHE_TTL <= now - _last_helius_t g /\
    HELIUS_API_KEY cfg <> "" /\
    let price := Py.or_ (opt_or (price_per_token info) 0) 0 in
    let adjusted_supply :=
      Py.or_ (opt_or (supply info) 0) 0 / Qpower 10 (opt_or (decimals info) 0%Z) in
    refresh_market_data cfg now answer g
    = ({| STATE := set_market_cap_usd (Py.round (price * adjusted_supply) 2)
                     (set_price_usd (Py.round price 8) (STATE g));
          _last_helius_t := now |}, Ok tt).
Proof.
  unfold refresh_market_data.
  destruct (Qle_bool _HELIUS_CACHE_TTL (now - _last_helius_t g)) eqn:Ettl; simpl;
    [|left; reflexivity].
  destruct (nonempty (HELIUS_API_KEY cfg)) eqn:Ekey; simpl; [|left; reflexivity].
  destruct answer as [info|msg]; [right|left; reflexivity].
  exists info. split; [reflexivity|]. split; [apply Qle_bool_iff; exact Ettl|].
  split; [|reflexivity].
  intros E. rewrite E in Ekey. discriminate.
Qed.

Lemma refresh_market_data_returns cfg now answer g :
  snd (refresh_market_data cfg now answer g) = Ok tt.
Proof.
  destruct (refresh_market_data_cases cfg now answer g) as [E|(info & _ & _ & _ & E)];
    rewrite E; reflexivity.
Qed.

Lemma refresh_market_data_bucket cfg now answer g :
  last_goal_bucket (STATE (fst (refresh_market_data cfg now answer g)))
  = last_goal_bucket (STATE g).
Proof.
  destruct (refresh_market_data_cases cfg now answer g) as [E|(info & _ & _ & _ & E)];
    rewrite E; reflexivity.
Qed.

Lemma refresh_within_ttl cfg now answer g :
  now - _last_helius_t g < _HELIUS_CACHE_TTL ->
  refresh_market_data cfg now answer g = (g, Ok tt).
Proof.
  intros H. unfold refresh_market_data.
  apply Qle_bool_false in H. rewrite H. reflexivity.
Qed.

Lemma refresh_without_key cfg now answer g :
  HELIUS_API_KEY cfg = "" ->
  refresh_market_data cfg now answer g = (g, Ok tt).
Proof.
  intros H. unfold refresh_market_data.
  destruct (negb (Qle_bool _HELIUS_CACHE_TTL (now - _last_helius_t g)));
    [reflexivity|].
  rewrite H. reflexivity.
Qed.

Lemma refresh_failed cfg now msg g :
  refresh_market_data cfg now (ExtErr msg) g = (g, Ok tt).
Proof.
  unfold refresh_market_data.
  destruct (negb (Qle_bool _HELIUS_CACHE_TTL (now - _last_helius_t g)));
    [reflexivity|].
  destruct (negb (nonempty (HELIUS_API_KEY cfg))); reflexivity.
Qed.

Lemma refresh_good cfg now info g :
  _HELIUS_CACHE_TTL <= now - _last_helius_t g ->
  HELIUS_API_KEY cfg <> "" ->
  let price := Py.or_ (opt_or (price_per_token info) 0) 0 in
  let adjusted_supply :=
    Py.or_ (opt_or (supply info) 0) 0 / Qpower 10 (opt_or (decimals info) 0%Z) in
  refresh_market_data cfg now (ExtOk info) g
  = ({| STATE := set_market_cap_usd (Py.round (price * adjusted_supply) 2)
                   (set_price_usd (Py.round price 8) (STATE g));
        _last_helius_t := now |}, Ok tt).
Proof.
  intros Httl Hkey price adjusted_supply. unfold refresh_market_data.
  apply Qle_bool_iff in Httl. rewrite Httl.
  apply String.eqb_neq in Hkey. unfold nonempty. rewrite Hkey. reflexivity.
Qed.

(** [C9] The market-data refresh always returns normally.  It leaves the
    globals as they are when called less than 20 seconds after the last good
    refresh, when no Helius key is configured, and when the request or the
    parsing fails.  Otherwise it stores the price rounded to 8 decimals and
    the market cap rounded to 2 and notes the time.  In every case the other
    fields of the dashboard state keep their values. *)
Theorem C9_refresh_market_data_frame :
  forall cfg now answer g,
    let g' := fst (refresh_market_data cfg now answer g) in
    snd (refresh_market_data cfg now answer g) = Ok tt /\
    (now - _last_helius_t g < _HELIUS_CACHE_TTL -> g' = g) /\
    (HELIUS_API_KEY cfg = "" -> g' = g) /\
    (forall msg, answer = ExtErr msg -> g' = g) /\
    (forall info,
       answer = ExtOk info ->
       _HELIUS_CACHE_TTL <= now - _last_helius_t g ->
       HELIUS_API_KEY cfg <> "" ->
       let price := Py.or_ (opt_or (price_per_token info) 0) 0 in
       let adjusted_supply :=
         Py.or_ (opt_or (supply info) 0) 0 / Qpower 10 (opt_or (decimals info) 0%Z) in
       price_usd (STATE g') = Py.round price 8 /\
       market_cap_usd (STATE g') = Py.round (price * adjusted_supply) 2 /\
       _last_helius_t g' = now) /\
    volume_change_pct (STATE g') = volume_change_pct (STATE g) /\
    buybacks_usd (STATE g') = buybacks_usd (STATE g) /\
    burned_usd (STATE g') = burned_usd (STATE g) /\
    supply_burned_pct (STATE g') = supply_burned_pct (STATE g) /\
    last_goal_bucket (STATE g') = last_goal_bucket (STATE g) /\
    tx (STATE g') = tx (STATE g).
Proof.
  intros cfg now answer g g'. subst g'.
  split; [apply refresh_market_data_returns|].
  split; [intros H; rewrite (refresh_within_ttl cfg now answer g H); reflexivity|].
  split; [intros H; rewrite (refresh_without_key cfg now answer g H); reflexivity|].
  split; [intros msg ->; rewrite refresh_failed; reflexivity|].
  split.
  - intros info -> Httl Hkey price adjusted_supply.
    rewrite (refresh_good cfg now info g Httl Hkey). repeat split.
  - destruct (refresh_market_data_cases cfg now answer g)
      as [E|(info & _ & _ & _ & E)]; rewrite E; repeat split.
Qed.

(** ** Crossing detection *)

Section Crossing.

Variable str_float : Q -> string.
Variable cfg : Settings.

Lemma current_bucket_floor st :
  current_bucket st = Qfloor (market_cap_usd st / GOAL_STEP).
Proof.
  unfold current_bucket, Py.floordiv. rewrite int_inject_Z.
  apply Qfloor_comp. rewrite or_zero_eq. reflexivity.
Qed.

Lemma current_bucket_market_cap st st' :
  market_cap_usd st' = market_cap_usd st -> current_bucket st' = current_bucket st.
Proof. unfold current_bucket. intros ->. reflexivity. Qed.

Lemma process_not_crossed w st :
  (current_bucket st <= last_goal_bucket st)%Z ->
  process_goal_if_crossed str_float cfg w st = (st, Ok tt).
Proof.
  intros H. unfold process_goal_if_crossed.
  apply Z.leb_le in H. rewrite H. reflexivity.
Qed.

Lemma process_crossed w st :
  (last_goal_bucket st < current_bucket st)%Z ->
  process_goal_if_crossed str_float cfg w st
  = run_stages str_float cfg w (set_last_goal_bucket (current_bucket st) st).
Proof.
  intros H. unfold process_goal_if_crossed.
  apply Z.leb_gt in H. rewrite H. reflexivity.
Qed.

Lemma process_bucket w st :
  last_goal_bucket (fst (process_goal_if_crossed str_float cfg w st))
  = Z.max (last_goal_bucket st) (current_bucket st).
Proof.
  destruct (Z_lt_le_dec (last_goal_bucket st) (current_bucket st)) as [H|H].
  - rewrite (process_crossed w st H).
    destruct (run_stages_frame str_float cfg w
                (set_last_goal_bucket (current_bucket st) st)) as (-> & _).
    simpl. lia.
  - rewrite (process_not_crossed w st H). simpl. lia.
Qed.

Lemma process_market_cap w st :
  market_cap_usd (fst (process_goal_if_crossed str_float cfg w st)) = market_cap_usd st.
Proof.
  destruct (Z_lt_le_dec (last_goal_bucket st) (current_bucket st)) as [H|H].
  - rewrite (process_crossed w st H).
    destruct (run_stages_frame str_float cfg w
                (set_last_goal_bucket (current_bucket st) st)) as (_ & -> & _).
    reflexivity.
  - rewrite (process_not_crossed w st H). reflexivity.
Qed.

Lemma process_idempotent w w' st :
  process_goal_if_crossed str_float cfg w'
    (fst (process_goal_if_crossed str_float cfg w st))
  = (fst (process_goal_if_crossed str_float cfg w st), Ok tt).
Proof.
  apply process_not_crossed.
  rewrite process_bucket.
  rewrite (current_bucket_market_cap st _ (process_market_cap w st)). lia.
Qed.

(** The handler of [GET /dashboard], laid out: the refresh returns, the
    pipeline runs on the refreshed state, and its exception, if any, is the
    handler's. *)
Lemma get_dashboard_run now helius w g :
  let g1 := fst (refresh_market_data cfg now helius g) in
  let r := process_goal_if_crossed str_float cfg w (STATE g1) in
  get_dashboard str_float cfg now helius w g
  = ({| STATE := fst r; _last_helius_t := _last_helius_t g1 |},
     match snd r with
     | Ok _ => Ok (snapshot cfg (fst r))
     | Raise e => Raise e
     end).
Proof.
  intros g1 r. subst g1 r. unfold get_dashboard, bind.
  pose proof (refresh_market_data_returns cfg now helius g) as Hr.
  destruct (refresh_market_data cfg now helius g) as [g1 r1].
  simpl in Hr. subst r1. cbn [fst]. unfold with_STATE.
  destruct (process_goal_if_crossed str_float cfg w (STATE g1)) as [st' [[]|e]];
    reflexivity.
Qed.

Lemma serve_bucket g r :
  (last_goal_bucket (STATE g) <= last_goal_bucket (STATE (serve str_float cfg g r)))%Z.
Proof.
  destruct r as [now helius w|delta]; simpl.
  - rewrite get_dashboard_run. cbn [fst STATE].
    rewrite process_bucket, refresh_market_data_bucket. lia.
  - lia.
Qed.

Lemma serve_all_bucket rs g :
  (last_goal_bucket (STATE g)
   <= last_goal_bucket (STATE (serve_all str_float cfg rs g)))%Z.
Proof.
  revert g. induction rs as [|r rs IH]; intros g; simpl.
  - lia.
  - eapply Z.le_trans; [apply (serve_bucket g r)|apply IH].
Qed.

End Crossing.

(** [C1] Over any sequence of dashboard reads and market-cap bumps the last
    processed bucket never decreases.  In one evaluation, the current bucket
    is the floor of market cap over 100,000; when it exceeds the last
    processed bucket, the stages run on a state in which the bucket has
    already been advanced to it, and they leave it there; otherwise the
    evaluation changes nothing.  Evaluating again on the state an evaluation
    left, whatever the world answers, changes nothing. *)
Theorem C1_bucket_monotone_advance_first_idempotent :
  forall str_float cfg,
    (forall rs1 rs2 g,
       (last_goal_bucket (STATE (serve_all str_float cfg rs1 g))
        <= last_goal_bucket (STATE (serve_all str_float cfg (rs1 ++ rs2) g)))%Z) /\
    (forall w st,
       (last_goal_bucket st
        <= last_goal_bucket (fst (process_goal_if_crossed str_float cfg w st)))%Z) /\
    (forall st, current_bucket st = Qfloor (market_cap_usd st / 100000)) /\
    (forall w st,
       (last_goal_bucket st < current_bucket st)%Z ->
       process_goal_if_crossed str_float cfg w st
       = run_stages str_float cfg w (set_last_goal_bucket (current_bucket st) st) /\
       last_goal_bucket (fst (process_goal_if_crossed str_float cfg w st))
       = current_bucket st) /\
    (forall w st,
       (current_bucket st <= last_goal_bucket st)%Z ->
       process_goal_if_crossed str_float cfg w st = (st, Ok tt)) /\
    (forall w w' st,
       let st' := fst (process_goal_if_crossed str_float cfg w st) in
       market_cap_usd st' = market_cap_usd st /\
       process_goal_if_crossed str_float cfg w' st' = (st', Ok tt)).
Proof.
  intros str_float cfg. repeat split.
  - intros rs1 rs2 g. unfold serve_all. rewrite fold_left_app.
    apply serve_all_bucket.
  - intros w st. rewrite process_bucket. lia.
  - intros st. apply current_bucket_floor.
  - apply process_crossed. assumption.
  - rewrite process_bucket. lia.
  - intros w st H. apply process_not_crossed. exact H.
  - apply process_market_cap.
  - apply process_idempotent.
Qed.

Lemma C1_bucket_witness :
  (last_goal_bucket Sample.state_250k < current_bucket Sample.state_250k)%Z /\
  last_goal_bucket
    (fst (process_goal_if_crossed Sample.str_float Sample.cfg Sample.world_ok
            Sample.state_250k))
  = current_bucket Sample.state_250k.
Proof.
  assert (H : (last_goal_bucket Sample.state_250k < current_bucket Sample.state_250k)%Z)
    by (vm_compute; reflexivity).
  split; [exact H|].
  destruct (C1_bucket_monotone_advance_first_idempotent Sample.str_float Sample.cfg)
    as (_ & _ & _ & Hcross & _).
  exact (proj2 (Hcross Sample.world_ok Sample.state_250k H)).
Defined.

Lemma C9_refresh_witness :
  _HELIUS_CACHE_TTL <= 100 - _last_helius_t GLOBALS0 /\
  HELIUS_API_KEY Sample.cfg <> "" /\
  price_usd
    (STATE (fst (refresh_market_data Sample.cfg 100 (ExtOk Sample.token_info) GLOBALS0)))
  = Py.round (Py.or_ (opt_or (price_per_token Sample.token_info) 0) 0) 8.
Proof.
  assert (Httl : _HELIUS_CACHE_TTL <= 100 - _last_helius_t GLOBALS0)
    by (vm_compute; discriminate).
  assert (Hkey : HELIUS_API_KEY Sample.cfg <> "") by discriminate.
  split; [exact Httl|]. split; [exact Hkey|].
  destruct (C9_refresh_market_data_frame Sample.cfg 100 (ExtOk Sample.token_info) GLOBALS0)
    as (_ & _ & _ & _ & Hgood & _).
  exact (proj1 (Hgood Sample.token_info eq_refl Httl Hkey)).
Defined.

(** ** The claim stage *)

(** [C5] When the bucket has been crossed and the claim raises, the exception
    is an [Exception]; the evaluation returns normally and leaves exactly one
    new record on the log, a claim record with amount 0, no signature, status
    recorded and the error in its description; no buyback or burn record is
    added, the counters are untouched, and the bucket stays advanced. *)
Theorem C5_claim_failure_one_record_bucket_kept :
  forall str_float cfg w st e,
    (last_goal_bucket st < current_bucket st)%Z ->
    claim_creator_fees cfg w = Raise e ->
    exists msg,
      e = Exception msg /\
      let failed := make_tx (now_claim w) "claim" 0 ("Claim failed: " ++ msg) None in
      let st' := fst (process_goal_if_crossed str_float cfg w st) in
      snd (process_goal_if_crossed str_float cfg w st) = Ok tt /\
      tx st' = firstn 50 ([failed] ++ tx st) /\
      kind failed = "claim" /\
      amount_sol failed = 0 /\
      signature failed = None /\
      status failed = "recorded" /\
      description failed = "Claim failed: " ++ msg /\
      last_goal_bucket st' = current_bucket st /\
      buybacks_usd st' = buybacks_usd st /\
      burned_usd st' = burned_usd st /\
      supply_burned_pct st' = supply_burned_pct st.
Proof.
  intros str_float cfg w st e Hcross Hclaim.
  rewrite (process_crossed str_float cfg w st Hcross).
  destruct (run_stages_claim_raises str_float cfg w e
              (set_last_goal_bucket (current_bucket st) st) Hclaim)
    as (msg & -> & E).
  exists msg. split; [reflexivity|].
  rewrite E. repeat split.
Qed.

Lemma C5_claim_failure_witness :
  (last_goal_bucket Sample.state_250k < current_bucket Sample.state_250k)%Z /\
  claim_creator_fees Sample.cfg Sample.world_claim_down
  = Raise (Exception "503 Server Error") /\
  exists msg,
    tx (fst (process_goal_if_crossed Sample.str_float Sample.cfg
               Sample.world_claim_down Sample.state_250k))
    = firstn 50
        ([make_tx (now_claim Sample.world_claim_down) "claim" 0
            ("Claim failed: " ++ msg) None] ++ tx Sample.state_250k).
Proof.
  assert (H : (last_goal_bucket Sample.state_250k < current_bucket Sample.state_250k)%Z)
    by (vm_compute; reflexivity).
  assert (Hc : claim_creator_fees Sample.cfg Sample.world_claim_down
               = Raise (Exception "503 Server Error")) by reflexivity.
  split; [exact H|]. split; [exact Hc|].
  destruct (C5_claim_failure_one_record_bucket_kept Sample.str_float Sample.cfg
              Sample.world_claim_down Sample.state_250k _ H Hc)
    as (msg & _ & _ & Htx & _).
  exists msg. exact Htx.
Defined.

(** ** Several thresholds at once *)

(** [C10] When the market cap has passed at least two thresholds since the
    last processed bucket, one evaluation moves the bucket straight to the
    current one and runs the stages once: what it leaves on top of the log is
    at most three records of which exactly one is a claim record, and a
    further evaluation on the resulting state changes nothing. *)
Theorem C10_several_thresholds_single_run :
  forall str_float cfg w st,
    (last_goal_bucket st + 2 <= current_bucket st)%Z ->
    let st' := fst (process_goal_if_crossed str_float cfg w st) in
    last_goal_bucket st' = current_bucket st /\
    (exists new,
       tx st' = firstn 50 (new ++ tx st) /\
       count_kind "claim" new = 1%nat /\
       (List.length new <= 3)%nat) /\
    (forall w', process_goal_if_crossed str_float cfg w' st' = (st', Ok tt)).
Proof.
  intros str_float cfg w st H st'. subst st'.
  split; [rewrite process_bucket; lia|].
  split; [|intros w'; apply process_idempotent].
  rewrite (process_crossed str_float cfg w st) by lia.
  exact (run_stages_appends str_float cfg w
           (set_last_goal_bucket (current_bucket st) st)).
Qed.

Lemma C10_several_thresholds_witness :
  (last_goal_bucket Sample.state_250k + 2 <= current_bucket Sample.state_250k)%Z /\
  last_goal_bucket
    (fst (process_goal_if_crossed Sample.str_float Sample.cfg Sample.world_ok
            Sample.state_250k))
  = current_bucket Sample.state_250k.
Proof.
  assert (H : (last_goal_bucket Sample.state_250k + 2
               <= current_bucket Sample.state_250k)%Z)
    by (vm_compute; discriminate).
  split; [exact H|].
  exact (proj1 (C10_several_thresholds_single_run Sample.str_float Sample.cfg
                  Sample.world_ok Sample.state_250k H)).
Defined.

(** ** The buyback stage *)

Lemma burn_stage_cases str_float cfg w buy_amount st :
  (exists burn_sig,
     burn_stage str_float cfg w buy_amount st
     = (burned_state str_float w burn_sig buy_amount st, Ok tt)) \/
  (exists msg,
     burn_stage str_float cfg w buy_amount st = (st, Raise (SystemExit msg))).
Proof.
  destruct (burn_recently_bought cfg (burn_world w) buy_amount)
    as [burn_sig|[msg|msg]] eqn:H.
  - left. exists burn_sig. apply burn_stage_returned. exact H.
  - exfalso. exact (burn_recently_bought_no_exception _ _ _ _ H).
  - right. exists msg. apply burn_stage_exit. exact H.
Qed.

Lemma make_tx_confirmed now k amount desc sig :
  nonempty sig = true ->
  status (make_tx now k amount desc (Some sig)) = "confirmed".
Proof. intros H. unfold make_tx, Py.truthy_str, nonempty in *. simpl. rewrite H. reflexivity. Qed.

(** [C4] In a cycle whose claim returned [claimed_sol], the buy amount is
    [round(claimed_sol * 0.25, 6)].  If it is not positive, the evaluation
    returns after putting a buyback record with amount 0 and the description
    "No buyback (claimed 0 SOL)" on top of the claim record, and nothing
    else.  If it is positive and the buy goes through, a confirmed buyback
    record with that amount sits directly on top of the claim record, under
    at most one further record, and cumulative [buybacks_usd] has grown by
    the buy amount times the price. *)
Theorem C4_buyback_stage :
  forall str_float cfg w st claim_sig claimed_sol,
    (last_goal_bucket st < current_bucket st)%Z ->
    claim_creator_fees cfg w = Ok (claim_sig, claimed_sol) ->
    let buy_amount := Py.round (claimed_sol * 0.25) 6 in
    let claimed :=
      make_tx (now_claim w) "claim" claimed_sol
        ("Claimed creator fees: " ++ str_float claimed_sol ++ " SOL") (Some claim_sig) in
    let run := process_goal_if_crossed str_float cfg w st in
    (buy_amount <= 0 ->
     let skipped :=
       make_tx (now_buyback w) "buyback" 0 "No buyback (claimed 0 SOL)" None in
     snd run = Ok tt /\
     tx (fst run) = firstn 50 ([skipped; claimed] ++ tx st) /\
     kind skipped = "buyback" /\
     amount_sol skipped = 0 /\
     count_kind "burn" [skipped; claimed] = 0%nat /\
     buybacks_usd (fst run) = buybacks_usd st) /\
    (0 < buy_amount ->
     forall buy_sig,
       buy_back_sol cfg w buy_amount = Ok buy_sig ->
       let bought :=
         make_tx (now_buyback w) "buyback" buy_amount
           ("Executed buy-back of " ++ str_float buy_amount ++ " SOL") (Some buy_sig) in
       kind bought = "buyback" /\
       status bought = "confirmed" /\
       signature bought = Some buy_sig /\
       amount_sol bought == buy_amount /\
       (exists later,
          tx (fst run) = firstn 50 (later ++ [bought; claimed] ++ tx st) /\
          (List.length later <= 1)%nat) /\
       buybacks_usd (fst run) == buybacks_usd st + buy_amount * price_usd st).
Proof.
  intros str_float cfg w st claim_sig claimed_sol Hcross Hclaim.
  cbv zeta. change (Py.round (claimed_sol * 0.25) 6) with (buy_amount_of claimed_sol).
  rewrite (process_crossed str_float cfg w st Hcross).
  remember (set_last_goal_bucket (current_bucket st) st) as st0 eqn:Est0.
  assert (Htx0 : tx st0 = tx st) by (subst st0; reflexivity).
  assert (Hbb0 : buybacks_usd st0 = buybacks_usd st) by (subst st0; reflexivity).
  assert (Hpr0 : price_usd st0 = price_usd st) by (subst st0; reflexivity).
  clear Est0.
  remember (buy_amount_of claimed_sol) as amt eqn:Eamt.
  split.
  - intros Hle. rewrite Eamt in Hle.
    rewrite (run_stages_no_buyback str_float cfg w _ _ st0 Hclaim Hle).
    cbn [fst snd]. split; [reflexivity|]. split.
    { rewrite tx_push_tx. apply firstn_push.
      rewrite tx_claimed_state, Htx0. apply firstn_push1. }
    split; [reflexivity|]. split; [reflexivity|]. split; [reflexivity|].
    exact Hbb0.
  - intros Hlt buy_sig Hbuy.
    split; [reflexivity|].
    split; [apply make_tx_confirmed, (buy_sig_nonempty cfg w amt), Hbuy|].
    split; [reflexivity|].
    split; [apply or_zero_eq|].
    assert (Hrun : run_stages str_float cfg w st0
                   = burn_stage str_float cfg w amt
                       (bought_state str_float w buy_sig amt
                          (claimed_state str_float w claim_sig claimed_sol st0))).
    { subst amt. apply run_stages_bought; assumption. }
    rewrite Hrun.
    remember (bought_state str_float w buy_sig amt
                (claimed_state str_float w claim_sig claimed_sol st0)) as st2 eqn:Est2.
    assert (Hlog : tx st2
                   = firstn 50 ([make_tx (now_buyback w) "buyback" amt
                                   ("Executed buy-back of " ++ str_float amt ++ " SOL")
                                   (Some buy_sig);
                                 make_tx (now_claim w) "claim" claimed_sol
                                   ("Claimed creator fees: " ++ str_float claimed_sol
                                    ++ " SOL") (Some claim_sig)] ++ tx st)).
    { subst st2. rewrite tx_bought_state. apply firstn_push.
      rewrite tx_claimed_state, Htx0. apply firstn_push1. }
    assert (Husd : buybacks_usd st2 == buybacks_usd st + amt * price_usd st).
    { subst st2.
      change (buybacks_usd st0 + amt * Py.or_ (price_usd st0) 0
              == buybacks_usd st + amt * price_usd st).
      rewrite Hbb0, Hpr0, or_zero_eq. reflexivity. }
    clear Est2.
    destruct (burn_stage_cases str_float cfg w amt st2)
      as [(burn_sig & E)|(msg & E)]; rewrite E; cbn [fst].
    + split; [|exact Husd].
      eexists [_]. split; [|simpl; lia].
      rewrite tx_burned_state. apply firstn_push. exact Hlog.
    + split; [|exact Husd].
      exists []. split; [exact Hlog|simpl; lia].
Qed.

Lemma C4_buyback_witness :
  (last_goal_bucket Sample.state_250k < current_bucket Sample.state_250k)%Z /\
  claim_creator_fees Sample.cfg Sample.world_ok = Ok ("CLAIM_SIG", 4.000000) /\
  0 < Py.round (4.000000 * 0.25) 6 /\
  buy_back_sol Sample.cfg Sample.world_ok (Py.round (4.000000 * 0.25) 6) = Ok "BUY_SIG" /\
  buybacks_usd
    (fst (process_goal_if_crossed Sample.str_float Sample.cfg Sample.world_ok
            Sample.state_250k))
  == buybacks_usd Sample.state_250k
     + Py.round (4.000000 * 0.25) 6 * price_usd Sample.state_250k.
Proof.
  assert (H : (last_goal_bucket Sample.state_250k < current_bucket Sample.state_250k)%Z)
    by (vm_compute; reflexivity).
  assert (Hc : claim_creator_fees Sample.cfg Sample.world_ok = Ok ("CLAIM_SIG", 4.000000))
    by (vm_compute; reflexivity).
  assert (Hpos : 0 < Py.round (4.000000 * 0.25) 6) by (vm_compute; reflexivity).
  assert (Hb : buy_back_sol Sample.cfg Sample.world_ok (Py.round (4.000000 * 0.25) 6)
               = Ok "BUY_SIG") by (vm_compute; reflexivity).
  split; [exact H|]. split; [exact Hc|]. split; [exact Hpos|]. split; [exact Hb|].
  destruct (C4_buyback_stage Sample.str_float Sample.cfg Sample.world_ok
              Sample.state_250k _ _ H Hc) as (_ & Hgood).
  destruct (Hgood Hpos _ Hb) as (_ & _ & _ & _ & _ & Husd).
  exact Husd.
Defined.

(** ** The transaction log *)

Lemma firstn_app_firstn {A} (n : nat) (l1 l2 : list A) :
  firstn n (l1 ++ firstn n l2) = firstn n (l1 ++ l2).
Proof.
  rewrite !firstn_app, firstn_firstn.
  replace (Nat.min (n - List.length l1) n) with (n - List.length l1)%nat by lia.
  reflexivity.
Qed.

Lemma push_all_log calls :
  forall st,
    (List.length (tx st) <= 50)%nat ->
    tx (push_all calls st) = firstn 50 (rev (map tx_of calls) ++ tx st).
Proof.
  induction calls as [|a calls IH]; intros st Hlen.
  - change (tx st = firstn 50 (tx st)). symmetry. apply firstn_all2. exact Hlen.
  - change (push_all (a :: calls) st) with (push_all calls (push st a)).
    rewrite IH.
    + unfold push. rewrite tx_push_tx. fold (tx_of a).
      rewrite firstn_app_firstn. cbn [map rev].
      rewrite <- app_assoc. reflexivity.
    + unfold push. rewrite tx_push_tx. apply firstn_le_length.
Qed.

(** [C7] After a [push_tx] the log holds at most 50 records; the new record
    is at the head and the records already there follow in their order.
    When the log was full, the one that leaves is its last record.  Starting
    from a log within the cap, after any run of pushes the log is the most
    recent 50 of all records, the latest first: the oldest go first. *)
Theorem C7_log_capped_newest_first :
  forall now k amount desc sig st,
    let r := make_tx now k amount desc sig in
    let st' := push_tx now k amount desc sig st in
    (List.length (tx st') <= 50)%nat /\
    tx st' = r :: firstn 49 (tx st) /\
    (List.length (tx st) = 50%nat -> tx st' = r :: removelast (tx st)) /\
    (forall calls,
       (List.length (tx st) <= 50)%nat ->
       tx (push_all calls st) = firstn 50 (rev (map tx_of calls) ++ tx st) /\
       (List.length (tx (push_all calls st)) <= 50)%nat).
Proof.
  intros now k amount desc sig st r st'. subst r st'.
  split; [rewrite tx_push_tx; apply firstn_le_length|].
  split; [reflexivity|].
  split.
  - intros Hfull. rewrite tx_push_tx, firstn_cons. f_equal.
    rewrite removelast_firstn_len, Hfull. reflexivity.
  - intros calls Hlen. rewrite (push_all_log calls st Hlen).
    split; [reflexivity|apply firstn_le_length].
Qed.

Lemma C7_log_witness :
  (List.length (tx STATE0) <= 50)%nat /\
  tx (push_all [Sample.args "1"; Sample.args "2"; Sample.args "3"] STATE0)
  = firstn 50 (rev (map tx_of [Sample.args "1"; Sample.args "2"; Sample.args "3"])
               ++ tx STATE0).
Proof.
  assert (H : (List.length (tx STATE0) <= 50)%nat) by (simpl; lia).
  split; [exact H|].
  destruct (C7_log_capped_newest_first "now" "claim" 0 "" None STATE0)
    as (_ & _ & _ & Hall).
  exact (proj1 (Hall _ H)).
Defined.

(** [C8] A log on which the record just pushed carries a signature that is
    not null, and yet is not confirmed: [push_tx] tests the signature for
    truth, and the empty string is falsy. *)
Lemma C8_empty_signature_counterexample :
  exists r,
    tx (push_tx "2025-01-01T00:00:00+00:00" "burn" 1 "burn" (Some "") STATE0) = [r] /\
    ~ (status r = "confirmed" <-> signature r <> None).
Proof.
  eexists. split; [reflexivity|].
  intros [_ H]. simpl in H.
  assert (C : "recorded" = "confirmed") by (apply H; discriminate).
  discriminate C.
Qed.

(** [C8] The record [push_tx] puts at the head of the log carries the
    signature it was given; its status is confirmed exactly when that
    signature is a non-empty string, and recorded otherwise, that is when
    the signature is null or empty. *)
Theorem C8_confirmed_iff_signature_nonempty :
  forall now k amount desc sig st,
    exists r,
      tx (push_tx now k amount desc sig st) = r :: firstn 49 (tx st) /\
      signature r = sig /\
      (status r = "confirmed" <-> exists s, signature r = Some s /\ s <> "") /\
      (status r = "recorded" <-> signature r = None \/ signature r = Some "") /\
      (signature r = None -> status r = "recorded").
Proof.
  intros now k amount desc sig st.
  exists (make_tx now k amount desc sig).
  split; [reflexivity|]. split; [reflexivity|].
  destruct sig as [s|]; simpl.
  - destruct (String.eqb s "") eqn:E; simpl.
    + apply String.eqb_eq in E. subst s. repeat split; try discriminate; auto.
      intros (s & Hs & Hne). injection Hs as <-. contradiction.
    + apply String.eqb_neq in E. repeat split; try discriminate.
      * intros _. exists s. split; [reflexivity|exact E].
      * intros [H|H]; [discriminate|]. injection H as ->. contradiction.
  - repeat split; try discriminate; auto.
    intros (s & Hs & _). discriminate.
Qed.

Lemma C8_confirmed_witness :
  exists r,
    tx (push_tx "2025-01-01T00:00:00+00:00" "claim" 1 "claimed" None STATE0)
    = r :: firstn 49 (tx STATE0) /\
    signature r = None /\ status r = "recorded".
Proof.
  destruct (C8_confirmed_iff_signature_nonempty
              "2025-01-01T00:00:00+00:00" "claim" 1 "claimed" None STATE0)
    as (r & Htx & Hsig & _ & _ & Hrec).
  exists r. split; [exact Htx|]. split; [exact Hsig|].
  apply Hrec. exact Hsig.
Defined.

(** ** The dashboard read *)

Lemma get_dashboard_snapshot str_float cfg now helius w g g' d :
  get_dashboard str_float cfg now helius w g = (g', Ok d) ->
  d = snapshot cfg (STATE g').
Proof.
  rewrite get_dashboard_run.
  destruct (snd (process_goal_if_crossed str_float cfg w
                   (STATE (fst (refresh_market_data cfg now helius g)))));
    intros H; inversion H. reflexivity.
Qed.

(** [C6] A read that returns with market cap one dollar above a threshold:
    the progress it reports is 0 although the market cap is not a multiple of
    100,000. *)
Lemma C6_progress_zero_off_threshold :
  exists d,
    snd (get_dashboard Sample.str_float Sample.cfg_no_key 0 (ExtErr "no reply")
           Sample.world_ok Sample.globals_100001) = Ok d /\
    Dashboard.market_cap_usd d == 100001 /\
    ~ (Dashboard.next_goal_progress_pct d == 0
       <-> multiple_of_goal_step (Dashboard.market_cap_usd d)).
Proof.
  eexists. split; [vm_compute; reflexivity|].
  split; [reflexivity|].
  intros [H _].
  assert (Hm : multiple_of_goal_step 100001) by (apply H; reflexivity).
  apply multiple_offset in Hm. vm_compute in Hm. discriminate Hm.
Qed.

(** [C6] Whenever the dashboard read returns, the progress it reports is
    between 0 and 100.  It is 0 when the market cap it reports is a multiple
    of 100,000, and also whenever the market cap is less than 5 above one,
    since the percentage is rounded to 2 decimals; a reported 0 means the
    market cap is at most 5 above a multiple. *)
Theorem C6_progress_range_zero_near_threshold :
  forall str_float cfg now helius w g g' d,
    get_dashboard str_float cfg now helius w g = (g', Ok d) ->
    let mc := Dashboard.market_cap_usd d in
    let pct := Dashboard.next_goal_progress_pct d in
    mc == market_cap_usd (STATE g') /\
    pct = Py.round (progress_pct mc) 2 /\
    0 <= pct /\ pct <= 100 /\
    (multiple_of_goal_step mc -> pct == 0) /\
    (mc - bucket_start mc < 5 -> pct == 0) /\
    (pct == 0 -> mc - bucket_start mc <= 5).
Proof.
  intros str_float cfg now helius w g g' d H mc pct.
  apply get_dashboard_snapshot in H. subst d mc pct. cbn [snapshot
    Dashboard.market_cap_usd Dashboard.next_goal_progress_pct].
  set (mc := Py.or_ (market_cap_usd (STATE g')) 0).
  split; [apply or_zero_eq|]. split; [reflexivity|].
  destruct (progress_pct_range mc) as [H0 H1].
  destruct (round_range_100 _ H0 H1) as [R0 R1].
  split; [exact R0|]. split; [exact R1|].
  split; [|split].
  - intros Hm. apply next_goal_progress_zero_below_5.
    apply multiple_offset in Hm. lra.
  - apply next_goal_progress_zero_below_5.
  - apply next_goal_progress_zero_inv.
Qed.

Lemma C6_progress_witness :
  let d := snapshot Sample.cfg_no_key Sample.state_100001 in
  get_dashboard Sample.str_float Sample.cfg_no_key 0 (ExtErr "no reply")
    Sample.world_ok Sample.globals_100001
  = (Sample.globals_100001, Ok d) /\
  Dashboard.market_cap_usd d - bucket_start (Dashboard.market_cap_usd d) < 5 /\
  Dashboard.next_goal_progress_pct d == 0.
Proof.
  intros d.
  assert (Hrun : get_dashboard Sample.str_float Sample.cfg_no_key 0 (ExtErr "no reply")
                   Sample.world_ok Sample.globals_100001
                 = (Sample.globals_100001, Ok d)) by (vm_compute; reflexivity).
  assert (Hnear : Dashboard.market_cap_usd d
                  - bucket_start (Dashboard.market_cap_usd d) < 5)
    by (vm_compute; reflexivity).
  split; [exact Hrun|]. split; [exact Hnear|].
  exact (proj1 (proj2 (proj2 (proj2 (proj2 (proj2
    (C6_progress_range_zero_near_threshold Sample.str_float Sample.cfg_no_key 0
       (ExtErr "no reply") Sample.world_ok Sample.globals_100001 _ _ Hrun))))))
    Hnear).
Defined.

(** ** Failures in the burn stage *)

(** [C2] The wallet holds none of the token when the burn starts: the burn
    executor raises [SystemExit], neither [except Exception] catches it, and
    the dashboard read raises it to its caller.  The log then ends with the
    buyback record; no entry describes the failure. *)
Theorem C2_zero_balance_exit_reaches_caller :
  let run := get_dashboard Sample.str_float Sample.cfg_no_key 0 (ExtErr "no reply")
               Sample.world_zero_balance Sample.globals_250k in
  burn_tokens Sample.cfg_no_key (burn_world Sample.world_zero_balance) None true
  = Raise (SystemExit "Nothing to burn: token balance is 0") /\
  snd run = Raise (SystemExit "Nothing to burn: token balance is 0") /\
  map kind (tx (STATE (fst run))) = ["buyback"; "claim"] /\
  map status (tx (STATE (fst run))) = ["confirmed"; "confirmed"] /\
  last_goal_bucket (STATE (fst run)) = 2%Z.
Proof. vm_compute. repeat split. Qed.

(** [C3] The burn's RPC query fails with an ordinary exception:
    [burn_recently_bought] swallows it and returns [None], and the pipeline
    goes on as after a good burn.  The burn record has no signature but the
    description and the amount of a success, and both [burned_usd] and
    [supply_burned_pct] have grown. *)
Theorem C3_failed_burn_counted_as_burned :
  let st := Sample.state_250k in
  let run := process_goal_if_crossed Sample.str_float Sample.cfg
               Sample.world_burn_rpc_down st in
  burn_tokens Sample.cfg (burn_world Sample.world_burn_rpc_down) None true
  = Raise (Exception "connection refused") /\
  burn_recently_bought Sample.cfg (burn_world Sample.world_burn_rpc_down) 1 = Ok None /\
  snd run = Ok tt /\
  (exists burn rest,
     tx (fst run) = burn :: rest /\
     kind burn = "burn" /\
     signature burn = None /\
     status burn = "recorded" /\
     description burn = "Burned tokens bought with <float> SOL" /\
     amount_sol burn == 1) /\
  burned_usd st == 0 /\
  burned_usd (fst run) == 2 /\
  supply_burned_pct st == 0 /\
  supply_burned_pct (fst run) == 0.05.
Proof.
  vm_compute. repeat split.
  do 2 eexists. repeat split.
Qed.

(** The only exception an evaluation lets out is a [SystemExit] that
    [burn_recently_bought] let through; failures of the claim and of the buy
    stay inside. *)
Lemma process_raises_only_burn_exit str_float cfg w st e :
  snd (process_goal_if_crossed str_float cfg w st) = Raise e ->
  exists msg claimed_sol,
    e = SystemExit msg /\
    burn_recently_bought cfg (burn_world w) (buy_amount_of claimed_sol)
    = Raise (SystemExit msg).
Proof.
  destruct (Z_lt_le_dec (last_goal_bucket st) (current_bucket st)) as [H|H].
  - rewrite (process_crossed str_float cfg w st H).
    pose proof (run_stages_end str_float cfg w
                  (set_last_goal_bucket (current_bucket st) st)) as Hend.
    inversion Hend as [msg Hc Heq|cs c Hc Hle Heq|cs c msg Hc Hlt Hb Heq
                       |cs c bs os Hc Hlt Hb Hburn Heq|cs c bs msg Hc Hlt Hb Hburn Heq];
      simpl; try discriminate.
    intros E. injection E as <-. exists msg, c. split; [reflexivity|exact Hburn].
  - rewrite (process_not_crossed str_float cfg w st H). discriminate.
Qed.

(** ** A burn that goes through *)

(** When the burn executor returns a non-empty signature the burn record is
    confirmed, [burned_usd] grows by the buy amount times the price, and
    [supply_burned_pct], if it stood on a multiple of 0.05 below 100, moves
    up by 0.05. *)
Lemma burn_stage_success str_float cfg w buy_amount burn_sig st :
  burn_recently_bought cfg (burn_world w) buy_amount = Ok (Some burn_sig) ->
  nonempty burn_sig = true ->
  let burnt :=
    make_tx (now_burn w) "burn" buy_amount
      ("Burned tokens bought with " ++ str_float buy_amount ++ " SOL")
      (Some burn_sig) in
  let run := burn_stage str_float cfg w buy_amount st in
  snd run = Ok tt /\
  tx (fst run) = burnt :: firstn 49 (tx st) /\
  status burnt = "confirmed" /\
  burned_usd (fst run) == burned_usd st + buy_amount * price_usd st /\
  supply_burned_pct (fst run)
  = Py.round (Py.min 100 (supply_burned_pct st + 0.05)) 4 /\
  (forall k : Z,
     supply_burned_pct st == inject_Z k * 0.05 ->
     supply_burned_pct st + 0.05 <= 100 ->
     supply_burned_pct (fst run) == supply_burned_pct st + 0.05).
Proof.
  intros Hburn Hsig burnt run. subst run burnt.
  rewrite (burn_stage_returned str_float cfg w _ _ st Hburn). cbn [fst snd].
  split; [reflexivity|]. split; [reflexivity|].
  split; [apply make_tx_confirmed; exact Hsig|].
  split.
  { change (burned_usd st + buy_amount * Py.or_ (price_usd st) 0
            == burned_usd st + buy_amount * price_usd st).
    rewrite or_zero_eq. reflexivity. }
  split; [reflexivity|].
  intros k Hk Hle.
  change (Py.round (Py.min 100 (supply_burned_pct st + 0.05)) 4
          == supply_burned_pct st + 0.05).
  rewrite (round_compat _ _ 4 (min_100_below _ Hle)).
  apply (round_on_grid _ 4 (500 * (k + 1))).
  change (Py.pow10 4) with 10000.
  rewrite Hk, inject_Z_mult, inject_Z_plus.
  change (inject_Z 500) with 500. change (inject_Z 1) with 1. field.
Qed.

(** ** Runs on the sample worlds *)

Example full_cycle_on_sample :
  let run := process_goal_if_crossed Sample.str_float Sample.cfg Sample.world_ok
               Sample.state_250k in
  snd run = Ok tt /\
  map kind (tx (fst run)) = ["burn"; "buyback"; "claim"] /\
  map status (tx (fst run)) = ["confirmed"; "confirmed"; "confirmed"] /\
  last_goal_bucket (fst run) = 2%Z /\
  buybacks_usd (fst run) == 2 /\
  burned_usd (fst run) == 2 /\
  supply_burned_pct (fst run) == 0.05.
Proof. vm_compute. repeat split. Qed.

Example nothing_claimed_on_sample :
  let run := process_goal_if_crossed Sample.str_float Sample.cfg
               Sample.world_nothing_claimed Sample.state_250k in
  snd run = Ok tt /\
  map kind (tx (fst run)) = ["buyback"; "claim"] /\
  map description (tx (fst run))
  = ["No buyback (claimed 0 SOL)"; "Claimed creator fees: <float> SOL"] /\
  map status (tx (fst run)) = ["recorded"; "confirmed"] /\
  buybacks_usd (fst run) == 0.
Proof. vm_compute. repeat split. Qed.

(** * Further properties of the code *)

(** ** The trade executor *)

Lemma round_nonneg (x : Q) (n : nat) : 0 <= x -> 0 <= Py.round x n.
Proof.
  intros H. unfold Py.round. pose proof (pow10_pos n) as Hp.
  assert (Hx : inject_Z 0 <= x * Py.pow10 n).
  { change (inject_Z 0) with 0. apply Qmult_le_0_compat; lra. }
  assert (Hc : x * Py.pow10 n <= inject_Z (Qceiling (x * Py.pow10 n)))
    by apply Qle_ceiling.
  destruct (round_half_even_between _ _ _ Hx Hc) as [Hz _].
  rewrite Zle_Qle in Hz. change (inject_Z 0) with 0 in Hz.
  apply Qle_shift_div_l; lra.
Qed.

Lemma round_nonpos (x : Q) (n : nat) : x <= 0 -> Py.round x n <= 0.
Proof.
  intros H. unfold Py.round. pose proof (pow10_pos n) as Hp.
  assert (Hx : x * Py.pow10 n <= inject_Z 0).
  { change (inject_Z 0) with 0.
    assert (E : x * Py.pow10 n == - ((- x) * Py.pow10 n)) by ring.
    assert (0 <= (- x) * Py.pow10 n) by (apply Qmult_le_0_compat; lra).
    lra. }
  assert (Hf : inject_Z (Qfloor (x * Py.pow10 n)) <= x * Py.pow10 n)
    by apply Qfloor_le.
  destruct (round_half_even_between _ _ _ Hf Hx) as [_ Hz].
  rewrite Zle_Qle in Hz. change (inject_Z 0) with 0 in Hz.
  apply Qle_shift_div_r; lra.
Qed.

Lemma max_0_nonneg (y : Q) : 0 <= y -> Py.max 0 y == y.
Proof.
  intros H. unfold Py.max.
  destruct (Qle_bool y 0) eqn:E; [|reflexivity].
  apply Qle_bool_iff in E. lra.
Qed.

Lemma max_0_nonpos (y : Q) : y <= 0 -> Py.max 0 y = 0.
Proof.
  intros H. unfold Py.max. apply Qle_bool_iff in H. rewrite H. reflexivity.
Qed.

Lemma nonempty_true (s : string) : nonempty s = true <-> s <> "".
Proof.
  unfold nonempty. rewrite negb_true_iff. split; intros H.
  - apply String.eqb_neq. exact H.
  - apply String.eqb_neq. exact H.
Qed.

Lemma claim_creator_fees_inv cfg w sig claimed :
  claim_creator_fees cfg w = Ok (sig, claimed) ->
  nonempty (WALLET_ADDRESS cfg) = true /\
  pump_portal_trade_local cfg (claim_trade w) = Ok sig /\
  claimed = Py.max 0 (Py.round (get_balance_sol (balance_after w)
                                - get_balance_sol (balance_before w)) 6).
Proof.
  unfold claim_creator_fees.
  destruct (nonempty (WALLET_ADDRESS cfg)); simpl; [|discriminate].
  destruct (pump_portal_trade_local cfg (claim_trade w)) as [s|e]; simpl;
    [|discriminate].
  intros H. injection H as <- <-. repeat split.
Qed.

Lemma trade_needs_key cfg t sig :
  pump_portal_trade_local cfg t = Ok sig -> nonempty (WALLET_PRIVATE_KEY cfg) = true.
Proof.
  unfold pump_portal_trade_local, _send_portal_tx_and_submit.
  destruct (portal t); simpl; [|discriminate].
  destruct (nonempty (WALLET_PRIVATE_KEY cfg)); simpl; [reflexivity|discriminate].
Qed.

(** [X1] Whenever the fee claim returns, the signature is a non-empty
    string, both the wallet address and the private key are configured, and
    the claimed amount is not negative and has at most 6 decimals. *)
Theorem claim_creator_fees_result :
  forall cfg w sig claimed,
    claim_creator_fees cfg w = Ok (sig, claimed) ->
    sig <> "" /\
    WALLET_ADDRESS cfg <> "" /\
    WALLET_PRIVATE_KEY cfg <> "" /\
    0 <= claimed /\
    exists k : Z, claimed * 1000000 == inject_Z k.
Proof.
  intros cfg w sig claimed H.
  destruct (claim_creator_fees_inv cfg w sig claimed H) as (Ha & Ht & ->).
  split; [apply nonempty_true, (trade_sig cfg (claim_trade w)), Ht|].
  split; [apply nonempty_true, Ha|].
  split; [apply nonempty_true, (trade_needs_key cfg _ _ Ht)|].
  split; [apply max_lower|].
  set (x := get_balance_sol (balance_after w) - get_balance_sol (balance_before w)).
  unfold Py.max. destruct (Qle_bool (Py.round x 6) 0).
  - exists 0%Z. reflexivity.
  - exists (Py.round_half_even (x * Py.pow10 6)). unfold Py.round.
    change (Py.pow10 6) with 1000000. field.
Qed.

Lemma claim_creator_fees_result_witness :
  claim_creator_fees Sample.cfg Sample.world_ok = Ok ("CLAIM_SIG", 4.000000) /\
  0 <= 4.000000.
Proof.
  assert (H : claim_creator_fees Sample.cfg Sample.world_ok = Ok ("CLAIM_SIG", 4.000000))
    by (vm_compute; reflexivity).
  split; [exact H|].
  exact (proj1 (proj2 (proj2 (proj2
    (claim_creator_fees_result Sample.cfg Sample.world_ok _ _ H))))).
Defined.

(** [X2] The claimed amount is a balance difference, and a balance query
    that fails counts as a balance of 0.  So when the query after the claim
    fails, nothing is reported as claimed; and when the query before the
    claim fails while the one after it answers, the whole wallet balance,
    rounded to 6 decimals, is reported as claimed. *)
Theorem claim_amount_when_a_balance_query_fails :
  forall cfg w sig claimed,
    claim_creator_fees cfg w = Ok (sig, claimed) ->
    (forall msg before,
       balance_after w = ExtErr msg ->
       balance_before w = ExtOk (Some before) ->
       (0 <= before)%Z ->
       claimed = 0) /\
    (forall msg after,
       balance_before w = ExtErr msg ->
       balance_after w = ExtOk (Some after) ->
       (0 <= after)%Z ->
       claimed == Py.round (inject_Z after / 1000000000) 6).
Proof.
  intros cfg w sig claimed H.
  destruct (claim_creator_fees_inv cfg w sig claimed H) as (_ & _ & ->).
  split.
  - intros msg before Ha Hb Hpos. rewrite Ha, Hb. cbn [get_balance_sol].
    apply max_0_nonpos, round_nonpos.
    assert (0 <= inject_Z before / inject_Z LAMPORTS_PER_SOL).
    { apply Qle_shift_div_l; [reflexivity|].
      rewrite Qmult_0_l. change 0 with (inject_Z 0). rewrite <- Zle_Qle. exact Hpos. }
    lra.
  - intros msg after Hb Ha Hpos. rewrite Ha, Hb. cbn [get_balance_sol].
    assert (Hq : 0 <= inject_Z after / inject_Z LAMPORTS_PER_SOL).
    { apply Qle_shift_div_l; [reflexivity|].
      rewrite Qmult_0_l. change 0 with (inject_Z 0). rewrite <- Zle_Qle. exact Hpos. }
    rewrite max_0_nonneg.
    + apply round_compat. change (inject_Z LAMPORTS_PER_SOL) with 1000000000. ring.
    + apply round_nonneg. lra.
Qed.

Lemma claim_amount_witness :
  claim_creator_fees Sample.cfg Cases.world_after_query_fails = Ok ("CLAIM_SIG", 0) /\
  balance_after Cases.world_after_query_fails = ExtErr "timeout" /\
  balance_before Cases.world_after_query_fails = ExtOk (Some 1000000000%Z) /\
  (0 <= 1000000000)%Z /\
  0 = 0.
Proof.
  assert (H : claim_creator_fees Sample.cfg Cases.world_after_query_fails
              = Ok ("CLAIM_SIG", 0)) by (vm_compute; reflexivity).
  assert (Hpos : (0 <= 1000000000)%Z) by lia.
  split; [exact H|]. split; [reflexivity|]. split; [reflexivity|].
  split; [exact Hpos|].
  exact (proj1 (claim_amount_when_a_balance_query_fails Sample.cfg
                  Cases.world_after_query_fails _ _ H)
           "timeout" 1000000000%Z eq_refl eq_refl Hpos).
Defined.

(** ** Missing settings *)

Lemma refresh_frame_fields cfg now answer g :
  let g' := fst (refresh_market_data cfg now answer g) in
  buybacks_usd (STATE g') = buybacks_usd (STATE g) /\
  burned_usd (STATE g') = burned_usd (STATE g) /\
  supply_burned_pct (STATE g') = supply_burned_pct (STATE g) /\
  tx (STATE g') = tx (STATE g).
Proof.
  destruct (refresh_market_data_cases cfg now answer g)
    as [E|(info & _ & _ & _ & E)]; rewrite E; repeat split.
Qed.

Lemma claim_without_private_key cfg w :
  WALLET_PRIVATE_KEY cfg = "" ->
  exists msg, claim_creator_fees cfg w = Raise (Exception msg).
Proof.
  intros Hkey.
  destruct (claim_creator_fees cfg w) as [[sig claimed]|[msg|msg]] eqn:H.
  - exfalso.
    destruct (claim_creator_fees_inv cfg w sig claimed H) as (_ & Ht & _).
    apply trade_needs_key, nonempty_true in Ht. exact (Ht Hkey).
  - exists msg. reflexivity.
  - exfalso. pose proof (claim_no_exit cfg w) as NE. rewrite H in NE. exact NE.
Qed.

(** [X3] Without a wallet address, an evaluation that sees a crossing makes
    no call at all: whatever the world would answer, it advances the bucket,
    logs one record "Claim failed: Missing WALLET_ADDRESS" and returns. *)
Theorem missing_wallet_address_cycle :
  forall str_float cfg w st,
    WALLET_ADDRESS cfg = "" ->
    (last_goal_bucket st < current_bucket st)%Z ->
    process_goal_if_crossed str_float cfg w st
    = (push_tx (now_claim w) "claim" 0 "Claim failed: Missing WALLET_ADDRESS" None
         (set_last_goal_bucket (current_bucket st) st), Ok tt).
Proof.
  intros str_float cfg w st Ha Hcross.
  rewrite (process_crossed str_float cfg w st Hcross).
  assert (Hc : claim_creator_fees cfg w = Raise (Exception "Missing WALLET_ADDRESS")).
  { unfold claim_creator_fees. rewrite Ha. reflexivity. }
  destruct (run_stages_claim_raises str_float cfg w _
              (set_last_goal_bucket (current_bucket st) st) Hc) as (msg & Hm & E).
  injection Hm as <-. exact E.
Qed.

Lemma missing_wallet_address_witness :
  WALLET_ADDRESS Cases.cfg_no_address = "" /\
  (last_goal_bucket Sample.state_250k < current_bucket Sample.state_250k)%Z /\
  snd (process_goal_if_crossed Sample.str_float Cases.cfg_no_address Sample.world_ok
         Sample.state_250k) = Ok tt.
Proof.
  assert (H : (last_goal_bucket Sample.state_250k < current_bucket Sample.state_250k)%Z)
    by (vm_compute; reflexivity).
  split; [reflexivity|]. split; [exact H|].
  rewrite (missing_wallet_address_cycle Sample.str_float Cases.cfg_no_address
             Sample.world_ok Sample.state_250k eq_refl H).
  reflexivity.
Defined.

Lemma Forall_firstn {A} (P : A -> Prop) (n : nat) (l : list A) :
  Forall P l -> Forall P (firstn n l).
Proof.
  intros H. revert n. induction H as [|a l Ha Hl IH]; intros n.
  - rewrite firstn_nil. constructor.
  - destruct n as [|n]; [constructor|].
    rewrite firstn_cons. constructor; [exact Ha|apply IH].
Qed.

Lemma Forall_push_tx (P : TransactionRecord -> Prop) now k amount desc sig st :
  P (make_tx now k amount desc sig) ->
  Forall P (tx st) ->
  Forall P (tx (push_tx now k amount desc sig st)).
Proof.
  intros Hr Hl. rewrite tx_push_tx. apply Forall_firstn. constructor; assumption.
Qed.

Lemma process_without_private_key str_float cfg w st :
  WALLET_PRIVATE_KEY cfg = "" ->
  let st' := fst (process_goal_if_crossed str_float cfg w st) in
  snd (process_goal_if_crossed str_float cfg w st) = Ok tt /\
  buybacks_usd st' = buybacks_usd st /\
  burned_usd st' = burned_usd st /\
  supply_burned_pct st' = supply_burned_pct st /\
  (Forall (fun r => signature r = None) (tx st) ->
   Forall (fun r => signature r = None) (tx st')).
Proof.
  intros Hkey.
  destruct (Z_lt_le_dec (last_goal_bucket st) (current_bucket st)) as [H|H].
  - rewrite (process_crossed str_float cfg w st H).
    destruct (claim_without_private_key cfg w Hkey) as (msg & Hc).
    destruct (run_stages_claim_raises str_float cfg w _
                (set_last_goal_bucket (current_bucket st) st) Hc) as (m & _ & E).
    rewrite E. cbn [fst snd]. repeat split.
    intros Hall. apply Forall_push_tx; [reflexivity|exact Hall].
  - rewrite (process_not_crossed str_float cfg w st H). cbn [fst snd].
    repeat split. auto.
Qed.

(** [X4] Without a private key nothing is ever bought or burned: over any
    sequence of dashboard reads and bumps, [buybacks_usd], [burned_usd] and
    [supply_burned_pct] keep their values, and a log that held no signed
    record holds none afterwards. *)
Theorem missing_private_key_nothing_traded :
  forall str_float cfg rs g,
    WALLET_PRIVATE_KEY cfg = "" ->
    let g' := serve_all str_float cfg rs g in
    buybacks_usd (STATE g') = buybacks_usd (STATE g) /\
    burned_usd (STATE g') = burned_usd (STATE g) /\
    supply_burned_pct (STATE g') = supply_burned_pct (STATE g) /\
    (Forall (fun r => signature r = None) (tx (STATE g)) ->
     Forall (fun r => signature r = None) (tx (STATE g'))).
Proof.
  intros str_float cfg rs g Hkey. revert g.
  induction rs as [|r rs IH]; intros g.
  - simpl. repeat split. auto.
  - change (serve_all str_float cfg (r :: rs) g)
      with (serve_all str_float cfg rs (serve str_float cfg g r)).
    specialize (IH (serve str_float cfg g r)). cbv zeta in IH |- *.
    destruct IH as (Hb & Hu & Hs & Hsig).
    assert (Hstep :
      buybacks_usd (STATE (serve str_float cfg g r)) = buybacks_usd (STATE g) /\
      burned_usd (STATE (serve str_float cfg g r)) = burned_usd (STATE g) /\
      supply_burned_pct (STATE (serve str_float cfg g r))
      = supply_burned_pct (STATE g) /\
      (Forall (fun r => signature r = None) (tx (STATE g)) ->
       Forall (fun r => signature r = None) (tx (STATE (serve str_float cfg g r))))).
    { destruct r as [now helius w|delta]; [|simpl; repeat split; auto].
      unfold serve. rewrite get_dashboard_run. cbn [fst STATE].
      destruct (process_without_private_key str_float cfg w
                  (STATE (fst (refresh_market_data cfg now helius g))) Hkey)
        as (_ & Hb' & Hu' & Hs' & Hsig').
      destruct (refresh_frame_fields cfg now helius g)
        as (Rb & Ru & Rs & Rtx).
      rewrite Hb', Hu', Hs', Rb, Ru, Rs. repeat split.
      intros Hall. apply Hsig'. rewrite Rtx. exact Hall. }
    destruct Hstep as (Hb1 & Hu1 & Hs1 & Hsig1).
    rewrite Hb, Hu, Hs, Hb1, Hu1, Hs1. repeat split.
    intros Hall. apply Hsig, Hsig1, Hall.
Qed.

Lemma missing_private_key_witness :
  WALLET_PRIVATE_KEY Cases.cfg_no_private_key = "" /\
  buybacks_usd
    (STATE (serve_all Sample.str_float Cases.cfg_no_private_key Cases.requests GLOBALS0))
  = buybacks_usd (STATE GLOBALS0).
Proof.
  split; [reflexivity|].
  exact (proj1 (missing_private_key_nothing_traded Sample.str_float
                  Cases.cfg_no_private_key Cases.requests GLOBALS0 eq_refl)).
Defined.

(** ** The burn executor *)

(** [X5] Whenever [burn_tokens] returns a signature, the amount it asked
    the chain to burn is positive and at most the balance it read; with
    [burn_all] it is the whole balance, otherwise the requested amount scaled
    by [10 ** decimals] and cut to an integer. *)
Theorem burn_tokens_within_balance :
  forall cfg bw amount_tokens burn_all sig,
    burn_tokens cfg bw amount_tokens burn_all = Ok sig ->
    exists decimals raw_bal raw_to_burn,
      get_mint_decimals cfg bw = Ok decimals /\
      read_token_balance_raw bw = Ok raw_bal /\
      (0 < raw_to_burn <= raw_bal)%Z /\
      send_burn bw raw_to_burn = ExtOk sig /\
      (burn_all = true -> raw_to_burn = raw_bal) /\
      (burn_all = false ->
       exists amount,
         amount_tokens = Some amount /\
         raw_to_burn = Py.int (amount * Qpower 10 decimals)).
Proof.
  intros cfg bw amount_tokens burn_all sig. unfold burn_tokens.
  destruct (load_keypair_from_base58 bw) as [[]|e]; simpl; [|discriminate].
  destruct (get_mint_decimals cfg bw) as [decimals|e]; simpl; [|discriminate].
  destruct (ensure_ata bw) as [[]|e]; simpl; [|discriminate].
  destruct (read_token_balance_raw bw) as [raw_bal|e]; simpl; [|discriminate].
  destruct (raw_bal <=? 0)%Z eqn:Hbal; [discriminate|].
  apply Z.leb_gt in Hbal.
  destruct burn_all.
  - simpl. intros H. exists decimals, raw_bal, raw_bal.
    split; [reflexivity|]. split; [reflexivity|]. split; [lia|].
    split.
    { destruct (send_burn bw raw_bal); simpl in H; [|discriminate].
      injection H as ->. reflexivity. }
    split; [reflexivity|discriminate].
  - destruct amount_tokens as [amount|]; simpl; [|discriminate].
    destruct (Py.int (amount * Qpower 10 decimals) <=? 0)%Z eqn:Hz; [discriminate|].
    destruct (raw_bal <? Py.int (amount * Qpower 10 decimals))%Z eqn:Hlt;
      [discriminate|].
    apply Z.leb_gt in Hz. apply Z.ltb_ge in Hlt.
    simpl. intros H.
    exists decimals, raw_bal, (Py.int (amount * Qpower 10 decimals)).
    split; [reflexivity|]. split; [reflexivity|]. split; [lia|].
    split.
    { destruct (send_burn bw (Py.int (amount * Qpower 10 decimals)));
        simpl in H; [|discriminate].
      injection H as ->. reflexivity. }
    split; [discriminate|].
    intros _. exists amount. split; reflexivity.
Qed.

Lemma burn_tokens_within_balance_witness :
  burn_tokens Sample.cfg (Sample.burn_world_with 1000) (Some 0.0005) false
  = Ok "BURN_SIG" /\
  exists raw_to_burn,
    (0 < raw_to_burn <= 1000)%Z /\
    raw_to_burn = Py.int (0.0005 * Qpower 10 6).
Proof.
  assert (H : burn_tokens Sample.cfg (Sample.burn_world_with 1000) (Some 0.0005) false
              = Ok "BURN_SIG") by (vm_compute; reflexivity).
  split; [exact H|].
  destruct (burn_tokens_within_balance Sample.cfg (Sample.burn_world_with 1000)
              (Some 0.0005) false "BURN_SIG" H)
    as (decimals & raw_bal & raw_to_burn & Hd & Hb & Hr & _ & _ & Hamt).
  exists raw_to_burn.
  assert (Ed : decimals = 6%Z) by (vm_compute in Hd; congruence).
  assert (Eb : raw_bal = 1000%Z) by (vm_compute in Hb; congruence).
  subst decimals raw_bal. split; [exact Hr|].
  destruct (Hamt eq_refl) as (amount & Ha & Hraw).
  injection Ha as <-. exact Hraw.
Defined.

(** [X6] An empty or missing token account stops the burn before the
    requested amount is looked at: once the key pair, the mint decimals and
    the token account are in place, a balance of zero or a missing account
    makes [burn_tokens] raise [SystemExit] "Nothing to burn", whatever
    amount was asked and whatever the chain would answer to a burn. *)
Theorem burn_tokens_nothing_to_burn :
  forall cfg bw amount_tokens burn_all decimals,
    keypair bw = ExtOk tt ->
    get_mint_decimals cfg bw = Ok decimals ->
    ensure_ata bw = Ok tt ->
    (account_info bw = ExtOk None \/
     exists raw_bal, account_info bw = ExtOk (Some raw_bal) /\ (raw_bal <= 0)%Z) ->
    burn_tokens cfg bw amount_tokens burn_all
    = Raise (SystemExit "Nothing to burn: token balance is 0").
Proof.
  intros cfg bw amount_tokens burn_all decimals Hk Hd Ha Hbal.
  unfold burn_tokens, load_keypair_from_base58. rewrite Hk. cbn [rbind].
  rewrite Hd. cbn [rbind]. rewrite Ha. cbn [rbind].
  unfold read_token_balance_raw.
  destruct Hbal as [E|(raw_bal & E & Hle)]; rewrite E; cbn [of_ext rbind].
  - reflexivity.
  - apply Z.leb_le in Hle. rewrite Hle. reflexivity.
Qed.

Lemma burn_tokens_nothing_to_burn_witness :
  burn_tokens Sample.cfg (Sample.burn_world_with 0) (Some 5) false
  = Raise (SystemExit "Nothing to burn: token balance is 0").
Proof.
  apply (burn_tokens_nothing_to_burn Sample.cfg (Sample.burn_world_with 0)
           (Some 5) false 6%Z); try reflexivity.
  right. exists 0%Z. split; [reflexivity|lia].
Defined.

Lemma no_exit_neq {A} (r : result A) (msg : string) :
  no_exit r -> r <> Raise (SystemExit msg).
Proof. intros NE E. rewrite E in NE. exact NE. Qed.

Lemma get_mint_decimals_no_exit cfg bw : no_exit (get_mint_decimals cfg bw).
Proof.
  unfold get_mint_decimals. apply no_exit_rbind; [apply no_exit_of_ext|].
  intros [d|]; exact I.
Qed.

Lemma ensure_ata_no_exit bw : no_exit (ensure_ata bw).
Proof.
  unfold ensure_ata. apply no_exit_rbind; [apply no_exit_of_ext|].
  intros [|]; [exact I|apply no_exit_of_ext].
Qed.

Lemma read_token_balance_raw_no_exit bw : no_exit (read_token_balance_raw bw).
Proof.
  unfold read_token_balance_raw. apply no_exit_rbind; [apply no_exit_of_ext|].
  intros [b|]; exact I.
Qed.

Lemma burn_tokens_exit_causes cfg bw amount_tokens burn_all msg :
  burn_tokens cfg bw amount_tokens burn_all = Raise (SystemExit msg) ->
  (exists e, keypair bw = ExtErr e /\ msg = "Invalid WALLET_PRIVATE_KEY base58: " ++ e) \/
  msg = "Nothing to burn: token balance is 0" \/
  (burn_all = false /\
   (amount_tokens = None /\ msg = "--amount is required unless --all is set" \/
    msg = "Amount after decimals rounds to zero" \/
    msg = "Not enough balance to burn the requested amount")).
Proof.
  unfold burn_tokens, load_keypair_from_base58.
  destruct (keypair bw) as [[]|ek]; cbn [rbind].
  2:{ intros H. injection H as <-. left. exists ek. split; reflexivity. }
  destruct (get_mint_decimals cfg bw) as [decimals|ed] eqn:Hd; cbn [rbind].
  2:{ intros H. injection H as ->. exfalso.
      exact (no_exit_neq _ _ (get_mint_decimals_no_exit cfg bw) Hd). }
  destruct (ensure_ata bw) as [[]|ea] eqn:Ha; cbn [rbind].
  2:{ intros H. injection H as ->. exfalso.
      exact (no_exit_neq _ _ (ensure_ata_no_exit bw) Ha). }
  destruct (read_token_balance_raw bw) as [raw_bal|eb] eqn:Hb; cbn [rbind].
  2:{ intros H. injection H as ->. exfalso.
      exact (no_exit_neq _ _ (read_token_balance_raw_no_exit bw) Hb). }
  destruct (raw_bal <=? 0)%Z.
  { intros H. injection H as <-. right. left. reflexivity. }
  destruct burn_all; cbn [rbind].
  { intros H. exfalso. exact (no_exit_neq _ _ (no_exit_of_ext _) H). }
  destruct amount_tokens as [amount|]; cbn [rbind].
  2:{ intros H. injection H as <-. right. right. split; [reflexivity|].
      left. split; reflexivity. }
  destruct (Py.int (amount * Qpower 10 decimals) <=? 0)%Z; cbn [rbind].
  { intros H. injection H as <-. right. right. split; [reflexivity|].
    right. left. reflexivity. }
  destruct (raw_bal <? Py.int (amount * Qpower 10 decimals))%Z; cbn [rbind].
  { intros H. injection H as <-. right. right. split; [reflexivity|].
    right. right. reflexivity. }
  intros H. exfalso. exact (no_exit_neq _ _ (no_exit_of_ext _) H).
Qed.

(** [X7] The only [SystemExit]s [burn_recently_bought] lets through are the
    three the burn path raises for a full-balance burn: settings missing
    when the burn module is loaded, a private key that is not valid base58,
    and an empty token balance. *)
Theorem burn_recently_bought_exit_causes :
  forall cfg bw amount_sol msg,
    burn_recently_bought cfg bw amount_sol = Raise (SystemExit msg) ->
    (msg = "Missing required .env: SOLANA_RPC_URL, WALLET_PRIVATE_KEY, TOKEN_MINT" /\
     (SOLANA_RPC_URL cfg = "" \/ WALLET_PRIVATE_KEY cfg = "" \/ TOKEN_MINT cfg = "")) \/
    (exists e, keypair bw = ExtErr e /\ msg = "Invalid WALLET_PRIVATE_KEY base58: " ++ e) \/
    msg = "Nothing to burn: token balance is 0".
Proof.
  intros cfg bw amount_sol msg H.
  pose proof (burn_recently_bought_cases cfg bw amount_sol) as Hc.
  unfold import_burn_tokens in Hc.
  destruct (library_imports bw) as [[]|e]; cbn [of_ext rbind] in Hc;
    [|rewrite Hc in H; discriminate].
  destruct (nonempty (SOLANA_RPC_URL cfg)) eqn:E1;
    [destruct (nonempty (WALLET_PRIVATE_KEY cfg)) eqn:E2;
     [destruct (nonempty (TOKEN_MINT cfg)) eqn:E3|]|];
    cbn [andb negb rbind] in Hc.
  - destruct (mint_pubkey bw) as [[]|e]; cbn [of_ext rbind] in Hc;
      [|rewrite Hc in H; discriminate].
    destruct (burn_tokens cfg bw None true) as [sig|[m|m]] eqn:Hb;
      rewrite Hc in H; try discriminate.
    injection H as <-.
    destruct (burn_tokens_exit_causes cfg bw None true m Hb)
      as [Hk|[Hz|(Hall & _)]]; [right; left; exact Hk|right; right; exact Hz|].
    discriminate Hall.
  - rewrite Hc in H. injection H as <-. left. split; [reflexivity|].
    right. right. apply negb_false_iff, String.eqb_eq in E3. exact E3.
  - rewrite Hc in H. injection H as <-. left. split; [reflexivity|].
    right. left. apply negb_false_iff, String.eqb_eq in E2. exact E2.
  - rewrite Hc in H. injection H as <-. left. split; [reflexivity|].
    left. apply negb_false_iff, String.eqb_eq in E1. exact E1.
Qed.

Lemma burn_recently_bought_exit_witness :
  burn_recently_bought Sample.cfg (Sample.burn_world_with 0) 1
  = Raise (SystemExit "Nothing to burn: token balance is 0") /\
  ("Nothing to burn: token balance is 0"
   = "Missing required .env: SOLANA_RPC_URL, WALLET_PRIVATE_KEY, TOKEN_MINT" /\
   (SOLANA_RPC_URL Sample.cfg = "" \/ WALLET_PRIVATE_KEY Sample.cfg = ""
    \/ TOKEN_MINT Sample.cfg = "") \/
   (exists e, keypair (Sample.burn_world_with 0) = ExtErr e /\
              "Nothing to burn: token balance is 0"
              = "Invalid WALLET_PRIVATE_KEY base58: " ++ e) \/
   "Nothing to burn: token balance is 0" = "Nothing to burn: token balance is 0").
Proof.
  assert (H : burn_recently_bought Sample.cfg (Sample.burn_world_with 0) 1
              = Raise (SystemExit "Nothing to burn: token balance is 0"))
    by (vm_compute; reflexivity).
  split; [exact H|].
  exact (burn_recently_bought_exit_causes Sample.cfg (Sample.burn_world_with 0) 1 _ H).
Defined.

(** [X8] Run from the command line, the burn script never stops with
    "--amount is required unless --all is set": the two options are a
    required exclusive group, so [main] asks for a partial burn only with an
    amount in hand. *)
Theorem main_never_misses_amount :
  forall cfg bw args,
    main cfg bw args <> Raise (SystemExit "--amount is required unless --all is set").
Proof.
  intros cfg bw args H. unfold main in H.
  destruct args as [|[amt|]].
  - destruct (burn_tokens cfg bw None true) as [sig|[m|m]] eqn:Hb;
      cbn [rbind] in H; try discriminate.
    injection H as ->.
    destruct (burn_tokens_exit_causes cfg bw None true _ Hb)
      as [(e & _ & Hm)|[Hm|(Hall & _)]]; discriminate.
  - destruct (burn_tokens cfg bw (Some amt) false) as [sig|[m|m]] eqn:Hb;
      cbn [rbind] in H; try discriminate.
    injection H as ->.
    destruct (burn_tokens_exit_causes cfg bw (Some amt) false _ Hb)
      as [(e & _ & Hm)|[Hm|(_ & [(Ha & _)|[Hm|Hm]])]]; discriminate.
  - cbn [rbind] in H. discriminate.
Qed.

(** ** The bump endpoint *)

Lemma serve_all_cons str_float cfg r rs g :
  serve_all str_float cfg (r :: rs) g
  = serve_all str_float cfg rs (serve str_float cfg g r).
Proof. reflexivity. Qed.

(** [X9] Bumps add up: after any run of [POST /simulate/bump-mc] calls the
    market cap is the old one plus the sum of the deltas, and nothing else
    in the globals has moved; in particular no bump by itself advances the
    bucket or touches the log. *)
Theorem bump_market_cap_accumulates :
  forall str_float cfg deltas g,
    let g' := serve_all str_float cfg (map BumpMc deltas) g in
    market_cap_usd (STATE g') == market_cap_usd (STATE g) + sum deltas /\
    price_usd (STATE g') = price_usd (STATE g) /\
    volume_change_pct (STATE g') = volume_change_pct (STATE g) /\
    buybacks_usd (STATE g') = buybacks_usd (STATE g) /\
    burned_usd (STATE g') = burned_usd (STATE g) /\
    supply_burned_pct (STATE g') = supply_burned_pct (STATE g) /\
    last_goal_bucket (STATE g') = last_goal_bucket (STATE g) /\
    tx (STATE g') = tx (STATE g) /\
    _last_helius_t g' = _last_helius_t g.
Proof.
  intros str_float cfg deltas. induction deltas as [|d ds IH]; intros g.
  - simpl. repeat split; try reflexivity. ring.
  - cbn [map]. rewrite serve_all_cons. cbv zeta in IH |- *.
    destruct (IH (serve str_float cfg g (BumpMc d)))
      as (Hm & Hp & Hv & Hb & Hu & Hs & Hl & Ht & Hh).
    rewrite Hp, Hv, Hb, Hu, Hs, Hl, Ht, Hh.
    split; [|repeat split].
    rewrite Hm. simpl. ring.
Qed.

Lemma floor_shift (q : Q) :
  (Qfloor q + 1 <= Qfloor (q + (11 # 10)) <= Qfloor q + 2)%Z.
Proof.
  pose proof (Qfloor_le q) as Ha. pose proof (Qlt_floor q) as Hb.
  pose proof (Qfloor_le (q + (11 # 10))) as Hc.
  pose proof (Qlt_floor (q + (11 # 10))) as Hd.
  rewrite inject_Z_plus in Hb, Hd. change (inject_Z 1) with 1 in Hb, Hd.
  split.
  - assert (H : inject_Z (Qfloor q) < inject_Z (Qfloor (q + (11 # 10))) + 1) by lra.
    assert (H' : inject_Z (Qfloor q) < inject_Z (Qfloor (q + (11 # 10)) + 1)).
    { rewrite inject_Z_plus. exact H. }
    rewrite <- Zlt_Qlt in H'. 
    assert (Hne : Qfloor (q + (11 # 10)) <> Qfloor q).
    { intros E. rewrite E in Hd. lra. }
    lia.
  - assert (H : inject_Z (Qfloor (q + (11 # 10))) < inject_Z (Qfloor q) + 3) by lra.
    assert (H' : inject_Z (Qfloor (q + (11 # 10))) < inject_Z (Qfloor q + 3)).
    { rewrite inject_Z_plus. exact H. }
    rewrite <- Zlt_Qlt in H'. lia.
Qed.

(** [X10] The default bump of 110,000 always moves the market cap one or
    two buckets up.  So on a state whose processed bucket is not ahead of
    its market cap, the evaluation after a default bump runs the stages: it
    advances the bucket past the old one and logs exactly one claim
    record. *)
Theorem default_bump_forces_a_crossing :
  forall str_float cfg w st,
    let bumped := bump_market_cap 110000 st in
    (current_bucket st + 1 <= current_bucket bumped <= current_bucket st + 2)%Z /\
    ((last_goal_bucket st <= current_bucket st)%Z ->
     let st' := fst (process_goal_if_crossed str_float cfg w bumped) in
     (last_goal_bucket st < last_goal_bucket st')%Z /\
     last_goal_bucket st' = current_bucket bumped /\
     exists new,
       tx st' = firstn 50 (new ++ tx st) /\ count_kind "claim" new = 1%nat).
Proof.
  intros str_float cfg w st bumped.
  assert (Hshift : (current_bucket st + 1 <= current_bucket bumped
                    <= current_bucket st + 2)%Z).
  { subst bumped. rewrite !current_bucket_floor.
    assert (E : market_cap_usd (bump_market_cap 110000 st) / GOAL_STEP
                == market_cap_usd st / GOAL_STEP + (11 # 10)).
    { simpl. unfold GOAL_STEP. field. }
    rewrite (Qfloor_comp _ _ E). apply floor_shift. }
  split; [exact Hshift|].
  intros Hle st'. subst st'.
  assert (Hcross : (last_goal_bucket bumped < current_bucket bumped)%Z).
  { change (last_goal_bucket bumped) with (last_goal_bucket st). lia. }
  split; [rewrite process_bucket; change (last_goal_bucket bumped)
            with (last_goal_bucket st); lia|].
  split; [rewrite process_bucket; lia|].
  rewrite (process_crossed str_float cfg w bumped Hcross).
  destruct (run_stages_appends str_float cfg w
              (set_last_goal_bucket (current_bucket bumped) bumped))
    as (new & Htx & Hcount & _).
  exists new. split; [exact Htx|exact Hcount].
Qed.

Lemma default_bump_witness :
  (last_goal_bucket STATE0 <= current_bucket STATE0)%Z /\
  last_goal_bucket
    (fst (process_goal_if_crossed Sample.str_float Sample.cfg Sample.world_ok
            (bump_market_cap 110000 STATE0)))
  = current_bucket (bump_market_cap 110000 STATE0).
Proof.
  assert (H : (last_goal_bucket STATE0 <= current_bucket STATE0)%Z)
    by (vm_compute; discriminate).
  split; [exact H|].
  exact (proj1 (proj2 (proj2 (default_bump_forces_a_crossing Sample.str_float
                                Sample.cfg Sample.world_ok STATE0) H))).
Defined.

(** ** The dashboard read, continued *)

(** [X11] The goal a dashboard read reports is the first multiple of
    100,000 strictly above the market cap it reports: it is a multiple of
    100,000, it is above the market cap, and by no more than 100,000. *)
Theorem next_goal_is_next_multiple :
  forall str_float cfg now helius w g g' d,
    get_dashboard str_float cfg now helius w g = (g', Ok d) ->
    let mc := Dashboard.market_cap_usd d in
    let goal := Dashboard.next_goal_usd d in
    multiple_of_goal_step goal /\
    mc < goal /\
    goal - mc <= 100000.
Proof.
  intros str_float cfg now helius w g g' d H mc goal.
  apply get_dashboard_snapshot in H. subst d mc goal.
  cbn [snapshot Dashboard.market_cap_usd Dashboard.next_goal_usd].
  set (mc := Py.or_ (market_cap_usd (STATE g')) 0).
  destruct (offset_range mc) as [H0 H1]. unfold GOAL_STEP in H1.
  split; [|unfold GOAL_STEP; split; lra].
  exists (Qfloor (mc / GOAL_STEP) + 1)%Z.
  rewrite bucket_start_floor, inject_Z_plus. change (inject_Z 1) with 1. ring.
Qed.

Lemma next_goal_witness :
  let d := snapshot Sample.cfg_no_key Sample.state_100001 in
  get_dashboard Sample.str_float Sample.cfg_no_key 0 (ExtErr "no reply")
    Sample.world_ok Sample.globals_100001
  = (Sample.globals_100001, Ok d) /\
  Dashboard.market_cap_usd d < Dashboard.next_goal_usd d.
Proof.
  intros d.
  assert (Hrun : get_dashboard Sample.str_float Sample.cfg_no_key 0 (ExtErr "no reply")
                   Sample.world_ok Sample.globals_100001
                 = (Sample.globals_100001, Ok d)) by (vm_compute; reflexivity).
  split; [exact Hrun|].
  exact (proj1 (proj2 (next_goal_is_next_multiple Sample.str_float Sample.cfg_no_key 0
                         (ExtErr "no reply") Sample.world_ok Sample.globals_100001
                         _ _ Hrun))).
Defined.

(** ** What every request keeps *)

(** A property of [STATE] that does not look at the price or the market cap
    and that an evaluation of the pipeline keeps is kept by every request. *)
Lemma serve_all_keeps (I : State -> Prop) str_float cfg :
  (forall st p, I st -> I (set_price_usd p st)) ->
  (forall st m, I st -> I (set_market_cap_usd m st)) ->
  (forall w st, I st -> I (fst (process_goal_if_crossed str_float cfg w st))) ->
  forall rs g, I (STATE g) -> I (STATE (serve_all str_float cfg rs g)).
Proof.
  intros Hp Hm Hrun rs. induction rs as [|r rs IH]; intros g Hg; [exact Hg|].
  rewrite serve_all_cons. apply IH.
  destruct r as [now helius w|delta].
  - unfold serve. rewrite get_dashboard_run. cbn [fst STATE].
    apply Hrun.
    destruct (refresh_market_data_cases cfg now helius g)
      as [E|(info & _ & _ & _ & E)]; rewrite E; cbn [fst STATE].
    + exact Hg.
    + apply Hm, Hp, Hg.
  - simpl. apply Hm. exact Hg.
Qed.

Lemma process_log_length str_float cfg w st :
  (List.length (tx st) <= 50)%nat ->
  (List.length (tx (fst (process_goal_if_crossed str_float cfg w st))) <= 50)%nat.
Proof.
  intros H.
  destruct (Z_lt_le_dec (last_goal_bucket st) (current_bucket st)) as [Hc|Hc].
  - rewrite (process_crossed str_float cfg w st Hc).
    destruct (run_stages_appends str_float cfg w
                (set_last_goal_bucket (current_bucket st) st)) as (new & -> & _).
    apply firstn_le_length.
  - rewrite (process_not_crossed str_float cfg w st Hc). exact H.
Qed.

(** [X12] The cap holds for the life of the process: if the log holds at
    most 50 records, it holds at most 50 after any sequence of dashboard
    reads and bumps, also when a read ends in an exception. *)
Theorem log_cap_kept_by_every_request :
  forall str_float cfg rs g,
    (List.length (tx (STATE g)) <= 50)%nat ->
    (List.length (tx (STATE (serve_all str_float cfg rs g))) <= 50)%nat.
Proof.
  intros str_float cfg rs g.
  apply (serve_all_keeps (fun st => (List.length (tx st) <= 50)%nat)).
  - intros st p H. exact H.
  - intros st m H. exact H.
  - intros w st. apply process_log_length.
Qed.

Lemma log_cap_witness :
  (List.length (tx (STATE GLOBALS0)) <= 50)%nat /\
  (List.length
     (tx (STATE (serve_all Sample.str_float Sample.cfg_no_key Cases.requests GLOBALS0)))
   <= 50)%nat.
Proof.
  assert (H : (List.length (tx (STATE GLOBALS0)) <= 50)%nat) by (simpl; lia).
  split; [exact H|].
  exact (log_cap_kept_by_every_request Sample.str_float Sample.cfg_no_key
           Cases.requests GLOBALS0 H).
Defined.

Lemma well_formed_make_tx now k amount desc sig :
  k = "claim" \/ k = "buyback" \/ k = "burn" ->
  0 <= amount ->
  well_formed (make_tx now k amount desc sig).
Proof.
  intros Hk Ha. unfold well_formed, make_tx; cbn.
  split; [exact Hk|]. split; [reflexivity|].
  rewrite or_zero_eq. exact Ha.
Qed.

Lemma claimed_nonneg cfg w sig claimed :
  claim_creator_fees cfg w = Ok (sig, claimed) -> 0 <= claimed.
Proof.
  intros H. destruct (claim_creator_fees_inv cfg w sig claimed H) as (_ & _ & ->).
  apply max_lower.
Qed.

Lemma run_stages_well_formed str_float cfg w st :
  Forall well_formed (tx st) ->
  Forall well_formed (tx (fst (run_stages str_float cfg w st))).
Proof.
  intros Hall.
  destruct (run_stages_end str_float cfg w st)
    as [msg Hc|cs c Hc Hle|cs c msg Hc Hlt Hb|cs c bs os Hc Hlt Hb Hburn
        |cs c bs msg Hc Hlt Hb Hburn]; cbn [fst].
  - apply Forall_push_tx; [|exact Hall].
    apply well_formed_make_tx; [auto|lra].
  - apply Forall_push_tx; [apply well_formed_make_tx; [auto|lra]|].
    apply Forall_push_tx; [|exact Hall].
    apply well_formed_make_tx; [auto|exact (claimed_nonneg _ _ _ _ Hc)].
  - apply Forall_push_tx; [apply well_formed_make_tx; [auto|lra]|].
    apply Forall_push_tx; [|exact Hall].
    apply well_formed_make_tx; [auto|exact (claimed_nonneg _ _ _ _ Hc)].
  - rewrite tx_burned_state. apply Forall_firstn. constructor.
    { apply well_formed_make_tx; [auto|lra]. }
    rewrite tx_bought_state. apply Forall_firstn. constructor.
    { apply well_formed_make_tx; [auto|lra]. }
    apply Forall_push_tx; [|exact Hall].
    apply well_formed_make_tx; [auto|exact (claimed_nonneg _ _ _ _ Hc)].
  - rewrite tx_bought_state. apply Forall_firstn. constructor.
    { apply well_formed_make_tx; [auto|lra]. }
    apply Forall_push_tx; [|exact Hall].
    apply well_formed_make_tx; [auto|exact (claimed_nonneg _ _ _ _ Hc)].
Qed.

(** [X13] Every record the pipeline logs is of kind claim, buyback or burn,
    has status confirmed or recorded according to the truth value of its
    signature, and has an amount that is not negative: a log of such records
    is still one after any sequence of dashboard reads and bumps. *)
Theorem log_records_stay_well_formed :
  forall str_float cfg rs g,
    Forall well_formed (tx (STATE g)) ->
    Forall well_formed (tx (STATE (serve_all str_float cfg rs g))).
Proof.
  intros str_float cfg rs g.
  apply (serve_all_keeps (fun st => Forall well_formed (tx st))).
  - intros st p H. exact H.
  - intros st m H. exact H.
  - intros w st H.
    destruct (Z_lt_le_dec (last_goal_bucket st) (current_bucket st)) as [Hc|Hc].
    + rewrite (process_crossed str_float cfg w st Hc).
      apply run_stages_well_formed. exact H.
    + rewrite (process_not_crossed str_float cfg w st Hc). exact H.
Qed.

Lemma log_records_witness :
  Forall well_formed (tx (STATE GLOBALS0)) /\
  Forall well_formed
    (tx (STATE (serve_all Sample.str_float Sample.cfg_no_key Cases.requests GLOBALS0))).
Proof.
  assert (H : Forall well_formed (tx (STATE GLOBALS0))) by constructor.
  split; [exact H|].
  exact (log_records_stay_well_formed Sample.str_float Sample.cfg_no_key
           Cases.requests GLOBALS0 H).
Defined.

Lemma nudge_range (s : Q) :
  0 <= s -> s <= 100 ->
  0 <= Py.round (Py.min 100 (s + 0.05)) 4 /\
  Py.round (Py.min 100 (s + 0.05)) 4 <= 100.
Proof.
  intros H0 H1.
  assert (Hm : 0 <= Py.min 100 (s + 0.05) /\ Py.min 100 (s + 0.05) <= 100).
  { split; [|apply min_upper].
    unfold Py.min. destruct (Qle_bool 100 (s + 0.05)); lra. }
  destruct Hm as [M0 M1]. generalize dependent (Py.min 100 (s + 0.05)).
  intros p M0 M1. split; [apply round_nonneg; exact M0|].
  unfold Py.round. change (Py.pow10 4) with 10000.
  destruct (round_half_even_between (p * 10000) 0 1000000) as [_ Hb].
  - change (inject_Z 0) with 0. lra.
  - change (inject_Z 1000000) with 1000000. lra.
  - rewrite Zle_Qle in Hb. change (inject_Z 1000000) with 1000000 in Hb.
    apply Qle_shift_div_r; lra.
Qed.

Lemma run_stages_supply_range str_float cfg w st :
  0 <= supply_burned_pct st /\ supply_burned_pct st <= 100 ->
  0 <= supply_burned_pct (fst (run_stages str_float cfg w st)) /\
  supply_burned_pct (fst (run_stages str_float cfg w st)) <= 100.
Proof.
  intros [H0 H1].
  destruct (run_stages_end str_float cfg w st); cbn [fst]; try (split; assumption).
  exact (nudge_range (supply_burned_pct st) H0 H1).
Qed.

(** [X14] [supply_burned_pct] stays a percentage: if it lies between 0 and
    100, it still does after any sequence of dashboard reads and bumps. *)
Theorem supply_burned_pct_stays_in_range :
  forall str_float cfg rs g,
    0 <= supply_burned_pct (STATE g) /\ supply_burned_pct (STATE g) <= 100 ->
    0 <= supply_burned_pct (STATE (serve_all str_float cfg rs g)) /\
    supply_burned_pct (STATE (serve_all str_float cfg rs g)) <= 100.
Proof.
  intros str_float cfg rs g.
  apply (serve_all_keeps
           (fun st => 0 <= supply_burned_pct st /\ supply_burned_pct st <= 100)).
  - intros st p H. exact H.
  - intros st m H. exact H.
  - intros w st H.
    destruct (Z_lt_le_dec (last_goal_bucket st) (current_bucket st)) as [Hc|Hc].
    + rewrite (process_crossed str_float cfg w st Hc).
      apply (run_stages_supply_range str_float cfg w
               (set_last_goal_bucket (current_bucket st) st)). exact H.
    + rewrite (process_not_crossed str_float cfg w st Hc). exact H.
Qed.

Lemma supply_burned_pct_witness :
  (0 <= supply_burned_pct (STATE GLOBALS0) /\ supply_burned_pct (STATE GLOBALS0) <= 100) /\
  supply_burned_pct
    (STATE (serve_all Sample.str_float Sample.cfg_no_key Cases.requests GLOBALS0))
  <= 100.
Proof.
  assert (H : 0 <= supply_burned_pct (STATE GLOBALS0)
              /\ supply_burned_pct (STATE GLOBALS0) <= 100)
    by (split; vm_compute; discriminate).
  split; [exact H|].
  exact (proj2 (supply_burned_pct_stays_in_range Sample.str_float Sample.cfg_no_key
                  Cases.requests GLOBALS0 H)).
Defined.

(** [X15] No request ever writes [volume_change_pct]: after any sequence of
    dashboard reads and bumps it has the value it started with. *)
Theorem volume_change_pct_never_written :
  forall str_float cfg rs g,
    volume_change_pct (STATE (serve_all str_float cfg rs g))
    = volume_change_pct (STATE g).
Proof.
  intros str_float cfg rs g.
  apply (serve_all_keeps
           (fun st => volume_change_pct st = volume_change_pct (STATE g))).
  - intros st p H. exact H.
  - intros st m H. exact H.
  - intros w st H. rewrite <- H.
    destruct (Z_lt_le_dec (last_goal_bucket st) (current_bucket st)) as [Hc|Hc].
    + rewrite (process_crossed str_float cfg w st Hc).
      destruct (run_stages_frame str_float cfg w
                  (set_last_goal_bucket (current_bucket st) st)) as (_ & _ & _ & E).
      exact E.
    + rewrite (process_not_crossed str_float cfg w st Hc). reflexivity.
  - reflexivity.
Qed.

(** ** One cycle, continued *)

(** [X16] In one evaluation [burned_usd] grows only together with
    [buybacks_usd] and by the same amount.  Either no counter moves, or a
    positive amount was bought and [buybacks_usd] grew by that amount times
    the price; then [burned_usd] and [supply_burned_pct] either moved with it
    and the evaluation returned, or stayed and the evaluation ended in a
    [SystemExit]. *)
Theorem burned_usd_follows_buybacks_usd :
  forall str_float cfg w st,
    let run := process_goal_if_crossed str_float cfg w st in
    (snd run = Ok tt /\
     buybacks_usd (fst run) = buybacks_usd st /\
     burned_usd (fst run) = burned_usd st /\
     supply_burned_pct (fst run) = supply_burned_pct st) \/
    exists buy_amount,
      0 < buy_amount /\
      buybacks_usd (fst run)
      = buybacks_usd st + buy_amount * Py.or_ (price_usd st) 0 /\
      ((snd run = Ok tt /\
        burned_usd (fst run) = burned_usd st + buy_amount * Py.or_ (price_usd st) 0 /\
        supply_burned_pct (fst run)
        = Py.round (Py.min 100 (supply_burned_pct st + 0.05)) 4) \/
       ((exists msg, snd run = Raise (SystemExit msg)) /\
        burned_usd (fst run) = burned_usd st /\
        supply_burned_pct (fst run) = supply_burned_pct st)).
Proof.
  intros str_float cfg w st run. subst run.
  destruct (Z_lt_le_dec (last_goal_bucket st) (current_bucket st)) as [Hc|Hc].
  - rewrite (process_crossed str_float cfg w st Hc).
    destruct (run_stages_end str_float cfg w
                (set_last_goal_bucket (current_bucket st) st))
      as [msg Hcl|cs c Hcl Hle|cs c msg Hcl Hlt Hb|cs c bs os Hcl Hlt Hb Hburn
          |cs c bs msg Hcl Hlt Hb Hburn]; cbn [fst snd].
    + left. repeat split.
    + left. repeat split.
    + left. repeat split.
    + right. exists (buy_amount_of c). split; [exact Hlt|].
      split; [reflexivity|]. left. repeat split.
    + right. exists (buy_amount_of c). split; [exact Hlt|].
      split; [reflexivity|]. right. split; [exists msg; reflexivity|].
      split; reflexivity.
  - rewrite (process_not_crossed str_float cfg w st Hc). left. repeat split.
Qed.

Lemma run_stages_kinds str_float cfg w st :
  exists new,
    tx (fst (run_stages str_float cfg w st)) = firstn 50 (new ++ tx st) /\
    (map kind new = ["claim"] \/
     map kind new = ["buyback"; "claim"] \/
     map kind new = ["burn"; "buyback"; "claim"]).
Proof.
  destruct (run_stages_end str_float cfg w st); cbn [fst]; eexists; split.
  - rewrite tx_push_tx. apply firstn_push1.
  - left. reflexivity.
  - rewrite tx_push_tx. apply firstn_push.
    rewrite tx_claimed_state. apply firstn_push1.
  - right. left. reflexivity.
  - rewrite tx_push_tx. apply firstn_push.
    rewrite tx_claimed_state. apply firstn_push1.
  - right. left. reflexivity.
  - rewrite tx_burned_state. apply firstn_push.
    rewrite tx_bought_state. apply firstn_push.
    rewrite tx_claimed_state. apply firstn_push1.
  - right. right. reflexivity.
  - rewrite tx_bought_state. apply firstn_push.
    rewrite tx_claimed_state. apply firstn_push1.
  - right. left. reflexivity.
Qed.

(** [X17] The records one evaluation adds come in the order of the stages.
    On a crossing the log gains, oldest first, a claim record, then possibly
    a buyback record, then possibly a burn record, with no other
    combination: never a burn without a buyback, never a buyback without a
    claim.  Without a crossing the log is untouched. *)
Theorem cycle_logs_stages_in_order :
  forall str_float cfg w st,
    let st' := fst (process_goal_if_crossed str_float cfg w st) in
    ((current_bucket st <= last_goal_bucket st)%Z -> tx st' = tx st) /\
    ((last_goal_bucket st < current_bucket st)%Z ->
     exists new,
       tx st' = firstn 50 (new ++ tx st) /\
       (map kind new = ["claim"] \/
        map kind new = ["buyback"; "claim"] \/
        map kind new = ["burn"; "buyback"; "claim"])).
Proof.
  intros str_float cfg w st st'. subst st'. split.
  - intros H. rewrite (process_not_crossed str_float cfg w st H). reflexivity.
  - intros H. rewrite (process_crossed str_float cfg w st H).
    exact (run_stages_kinds str_float cfg w
             (set_last_goal_bucket (current_bucket st) st)).
Qed.

Lemma cycle_logs_witness :
  (last_goal_bucket Sample.state_250k < current_bucket Sample.state_250k)%Z /\
  exists new,
    tx (fst (process_goal_if_crossed Sample.str_float Sample.cfg Sample.world_ok
               Sample.state_250k))
    = firstn 50 (new ++ tx Sample.state_250k).
Proof.
  assert (H : (last_goal_bucket Sample.state_250k < current_bucket Sample.state_250k)%Z)
    by (vm_compute; reflexivity).
  split; [exact H|].
  destruct (proj2 (cycle_logs_stages_in_order Sample.str_float Sample.cfg
                     Sample.world_ok Sample.state_250k) H) as (new & Htx & _).
  exists new. exact Htx.
Defined.

(** [X18] The dashboard read raises only in one situation: the refreshed
    market cap crossed a threshold, the claim and the buy both went through,
    and the burn raised a [SystemExit].  A failing claim or buy, or a read
    without a crossing, always returns; and when the read does raise, the
    bucket is advanced all the same. *)
Theorem dashboard_read_raises_only_on_burn_exit :
  forall str_float cfg now helius w g e,
    snd (get_dashboard str_float cfg now helius w g) = Raise e ->
    let st1 := STATE (fst (refresh_market_data cfg now helius g)) in
    (last_goal_bucket st1 < current_bucket st1)%Z /\
    last_goal_bucket (STATE (fst (get_dashboard str_float cfg now helius w g)))
    = current_bucket st1 /\
    exists msg claim_sig claimed_sol buy_sig,
      e = SystemExit msg /\
      claim_creator_fees cfg w = Ok (claim_sig, claimed_sol) /\
      0 < buy_amount_of claimed_sol /\
      buy_back_sol cfg w (buy_amount_of claimed_sol) = Ok buy_sig /\
      burn_recently_bought cfg (burn_world w) (buy_amount_of claimed_sol)
      = Raise (SystemExit msg).
Proof.
  intros str_float cfg now helius w g e. rewrite get_dashboard_run. cbn [fst snd STATE].
  set (st1 := STATE (fst (refresh_market_data cfg now helius g))).
  intros H.
  destruct (Z_lt_le_dec (last_goal_bucket st1) (current_bucket st1)) as [Hc|Hc].
  2:{ rewrite (process_not_crossed str_float cfg w st1 Hc) in H. discriminate. }
  split; [exact Hc|]. split; [rewrite process_bucket; lia|].
  rewrite (process_crossed str_float cfg w st1 Hc) in H.
  destruct (run_stages_end str_float cfg w
              (set_last_goal_bucket (current_bucket st1) st1))
    as [msg Hcl|cs c Hcl Hle|cs c msg Hcl Hlt Hb|cs c bs os Hcl Hlt Hb Hburn
        |cs c bs msg Hcl Hlt Hb Hburn]; cbn [snd] in H; try discriminate.
  injection H as <-. exists msg, cs, c, bs. repeat split; assumption.
Qed.

Lemma dashboard_read_raises_witness :
  snd (get_dashboard Sample.str_float Sample.cfg_no_key 0 (ExtErr "no reply")
         Sample.world_zero_balance Sample.globals_250k)
  = Raise (SystemExit "Nothing to burn: token balance is 0") /\
  last_goal_bucket
    (STATE (fst (get_dashboard Sample.str_float Sample.cfg_no_key 0 (ExtErr "no reply")
                   Sample.world_zero_balance Sample.globals_250k)))
  = current_bucket
      (STATE (fst (refresh_market_data Sample.cfg_no_key 0 (ExtErr "no reply")
                     Sample.globals_250k))).
Proof.
  assert (H : snd (get_dashboard Sample.str_float Sample.cfg_no_key 0
                     (ExtErr "no reply") Sample.world_zero_balance Sample.globals_250k)
              = Raise (SystemExit "Nothing to burn: token balance is 0"))
    by (vm_compute; reflexivity).
  split; [exact H|].
  exact (proj1 (proj2 (dashboard_read_raises_only_on_burn_exit Sample.str_float
                         Sample.cfg_no_key 0 (ExtErr "no reply")
                         Sample.world_zero_balance Sample.globals_250k _ H))).
Defined.

(** ** Market data refresh, continued *)

(** [X19] Only a good refresh starts the 20-second pause.  After a good
    refresh at time [now], a refresh less than 20 seconds later changes
    nothing, whatever Helius would answer.  After a failed refresh the pause
    has not started: a refresh at any later time with a good reply stores
    its figures. *)
Theorem refresh_pause_starts_on_success_only :
  forall cfg now g,
    _HELIUS_CACHE_TTL <= now - _last_helius_t g ->
    HELIUS_API_KEY cfg <> "" ->
    (forall info later answer,
       let g1 := fst (refresh_market_data cfg now (ExtOk info) g) in
       later - now < _HELIUS_CACHE_TTL ->
       refresh_market_data cfg later answer g1 = (g1, Ok tt)) /\
    (forall msg later info,
       let g1 := fst (refresh_market_data cfg now (ExtErr msg) g) in
       now <= later ->
       g1 = g /\
       price_usd (STATE (fst (refresh_market_data cfg later (ExtOk info) g1)))
       = Py.round (Py.or_ (opt_or (price_per_token info) 0) 0) 8 /\
       _last_helius_t (fst (refresh_market_data cfg later (ExtOk info) g1)) = later).
Proof.
  intros cfg now g Httl Hkey. split.
  - intros info later answer g1 Hlater. subst g1.
    rewrite (refresh_good cfg now info g Httl Hkey). cbn [fst].
    apply refresh_within_ttl. exact Hlater.
  - intros msg later info g1 Hle. subst g1.
    rewrite refresh_failed. cbn [fst]. split; [reflexivity|].
    assert (Httl' : _HELIUS_CACHE_TTL <= later - _last_helius_t g) by lra.
    rewrite (refresh_good cfg later info g Httl' Hkey). split; reflexivity.
Qed.

Lemma refresh_pause_witness :
  _HELIUS_CACHE_TTL <= 100 - _last_helius_t GLOBALS0 /\
  HELIUS_API_KEY Sample.cfg <> "" /\
  110 - 100 < _HELIUS_CACHE_TTL /\
  let g1 := fst (refresh_market_data Sample.cfg 100 (ExtOk Sample.token_info) GLOBALS0) in
  refresh_market_data Sample.cfg 110 (ExtOk Cases.token_info_no_price) g1 = (g1, Ok tt).
Proof.
  assert (Httl : _HELIUS_CACHE_TTL <= 100 - _last_helius_t GLOBALS0)
    by (vm_compute; discriminate).
  assert (Hkey : HELIUS_API_KEY Sample.cfg <> "") by discriminate.
  assert (Hlater : 110 - 100 < _HELIUS_CACHE_TTL) by (vm_compute; reflexivity).
  split; [exact Httl|]. split; [exact Hkey|]. split; [exact Hlater|].
  exact (proj1 (refresh_pause_starts_on_success_only Sample.cfg 100 GLOBALS0 Httl Hkey)
           Sample.token_info 110 (ExtOk Cases.token_info_no_price) Hlater).
Defined.

Lemma round_of_zero (x : Q) (n : nat) : x == 0 -> Py.round x n == 0.
Proof.
  intros E. apply round_zero_iff.
  apply round_half_even_small; rewrite E; lra.
Qed.

(** [X20] A reply that parses but carries no price, a price of 0, or no
    supply is still a good refresh: it does not keep the old figures.  With
    the price missing or 0 both [price_usd] and [market_cap_usd] become 0;
    with only the supply missing or 0 the market cap becomes 0. *)
Theorem refresh_with_missing_figures_stores_zero :
  forall cfg now info g,
    _HELIUS_CACHE_TTL <= now - _last_helius_t g ->
    HELIUS_API_KEY cfg <> "" ->
    let g' := fst (refresh_market_data cfg now (ExtOk info) g) in
    _last_helius_t g' = now /\
    (price_per_token info = None \/
     (exists p, price_per_token info = Some p /\ p == 0) ->
     price_usd (STATE g') == 0 /\ market_cap_usd (STATE g') == 0) /\
    (supply info = None \/ (exists s, supply info = Some s /\ s == 0) ->
     market_cap_usd (STATE g') == 0).
Proof.
  intros cfg now info g Httl Hkey g'. subst g'.
  rewrite (refresh_good cfg now info g Httl Hkey). cbn [fst STATE _last_helius_t].
  split; [reflexivity|].
  change (price_usd (set_market_cap_usd ?m (set_price_usd ?p ?st))) with p.
  change (market_cap_usd (set_market_cap_usd ?m ?st)) with m.
  split.
  - intros Hp.
    assert (E : Py.or_ (opt_or (price_per_token info) 0) 0 == 0).
    { rewrite or_zero_eq.
      destruct Hp as [->|(p & -> & Hz)]; [reflexivity|exact Hz]. }
    split; apply round_of_zero; [exact E|].
    rewrite E. ring.
  - intros Hs.
    assert (E : Py.or_ (opt_or (supply info) 0) 0 == 0).
    { rewrite or_zero_eq.
      destruct Hs as [->|(s & -> & Hz)]; [reflexivity|exact Hz]. }
    apply round_of_zero. rewrite E. unfold Qdiv. ring.
Qed.

Lemma refresh_missing_figures_witness :
  _HELIUS_CACHE_TTL <= 100 - _last_helius_t Sample.globals_250k /\
  HELIUS_API_KEY Sample.cfg <> "" /\
  price_per_token Cases.token_info_no_price = None /\
  market_cap_usd
    (STATE (fst (refresh_market_data Sample.cfg 100 (ExtOk Cases.token_info_no_price)
                   Sample.globals_250k)))
  == 0.
Proof.
  assert (Httl : _HELIUS_CACHE_TTL <= 100 - _last_helius_t Sample.globals_250k)
    by (vm_compute; discriminate).
  assert (Hkey : HELIUS_API_KEY Sample.cfg <> "") by discriminate.
  split; [exact Httl|]. split; [exact Hkey|]. split; [reflexivity|].
  exact (proj2 (proj1 (proj2 (refresh_with_missing_figures_stores_zero Sample.cfg 100
                                 Cases.token_info_no_price Sample.globals_250k
                                 Httl Hkey))
                  (or_introl eq_refl))).
Defined.

Lemma main_never_misses_amount_witness :
  main Sample.cfg (Sample.burn_world_with 1000) (ArgAmount (Some 0.0005))
  <> Raise (SystemExit "--amount is required unless --all is set").
Proof.
  exact (main_never_misses_amount Sample.cfg (Sample.burn_world_with 1000)
           (ArgAmount (Some 0.0005))).
Defined.

(** ** Reading twice *)

(** [X21] A read reports the state its own evaluation left.  When a read
    returns, the counters and the transactions it reports are those of the
    globals after the call; and when it saw a crossing, the transactions it
    reports begin with the records of that very cycle, one of them a claim
    record, on top of what the log held before the call. *)
Theorem dashboard_read_reports_its_own_cycle :
  forall str_float cfg now helius w g g' d,
    get_dashboard str_float cfg now helius w g = (g', Ok d) ->
    Dashboard.transactions d = tx (STATE g') /\
    Dashboard.buybacks_usd d = buybacks_usd (STATE g') /\
    Dashboard.burned_usd d = burned_usd (STATE g') /\
    Dashboard.supply_burned_pct d = supply_burned_pct (STATE g') /\
    Dashboard.price_usd d = price_usd (STATE g') /\
    let st1 := STATE (fst (refresh_market_data cfg now helius g)) in
    ((last_goal_bucket st1 < current_bucket st1)%Z ->
     exists new,
       Dashboard.transactions d = firstn 50 (new ++ tx (STATE g)) /\
       count_kind "claim" new = 1%nat).
Proof.
  intros str_float cfg now helius w g g' d H.
  pose proof (get_dashboard_snapshot _ _ _ _ _ _ _ _ H) as ->.
  cbn [snapshot Dashboard.transactions Dashboard.buybacks_usd Dashboard.burned_usd
       Dashboard.supply_burned_pct Dashboard.price_usd].
  repeat (split; [reflexivity|]).
  cbv zeta. intros Hc.
  rewrite get_dashboard_run in H. injection H as Hg _. rewrite <- Hg. cbn [STATE].
  set (st1 := STATE (fst (refresh_market_data cfg now helius g))) in *.
  rewrite (process_crossed str_float cfg w st1 Hc).
  destruct (run_stages_appends str_float cfg w
              (set_last_goal_bucket (current_bucket st1) st1))
    as (new & Htx & Hcount & _).
  exists new. split; [|exact Hcount].
  rewrite Htx. cbn [tx set_last_goal_bucket]. subst st1.
  destruct (refresh_frame_fields cfg now helius g) as (_ & _ & _ & ->).
  reflexivity.
Qed.

Lemma dashboard_read_reports_witness :
  let run := get_dashboard Sample.str_float Sample.cfg_no_key 0 (ExtErr "no reply")
               Sample.world_ok Sample.globals_250k in
  exists d,
    run = (fst run, Ok d) /\
    Dashboard.transactions d = tx (STATE (fst run)).
Proof.
  intros run.
  assert (H : exists d, run = (fst run, Ok d)).
  { eexists. vm_compute. reflexivity. }
  destruct H as (d & H). exists d. split; [exact H|].
  exact (proj1 (dashboard_read_reports_its_own_cycle Sample.str_float Sample.cfg_no_key
                  0 (ExtErr "no reply") Sample.world_ok Sample.globals_250k _ d H)).
Defined.

(** [X22] Polling inside the cache window is a pure read.  After a read
    that returned, a second read less than 20 seconds after the last good
    refresh changes no global and returns the same dashboard, whatever the
    world would answer: no second claim, buy or burn happens. *)
Theorem repeated_read_changes_nothing :
  forall str_float cfg now helius w g g' d later helius' w',
    get_dashboard str_float cfg now helius w g = (g', Ok d) ->
    later - _last_helius_t g' < _HELIUS_CACHE_TTL ->
    get_dashboard str_float cfg later helius' w' g' = (g', Ok d).
Proof.
  intros str_float cfg now helius w g g' d later helius' w' H Hlater.
  pose proof (get_dashboard_snapshot _ _ _ _ _ _ _ _ H) as Hd.
  rewrite get_dashboard_run in H. injection H as Hg _.
  rewrite get_dashboard_run.
  rewrite (refresh_within_ttl cfg later helius' g' Hlater). cbn [fst].
  assert (Hidem : process_goal_if_crossed str_float cfg w' (STATE g')
                  = (STATE g', Ok tt)).
  { rewrite <- Hg. cbn [STATE]. apply process_idempotent. }
  rewrite Hidem. cbn [fst snd]. rewrite Hd.
  destruct g' as [st t]. reflexivity.
Qed.

Lemma repeated_read_witness :
  let d := snapshot Sample.cfg_no_key Sample.state_100001 in
  get_dashboard Sample.str_float Sample.cfg_no_key 0 (ExtErr "no reply")
    Sample.world_ok Sample.globals_100001 = (Sample.globals_100001, Ok d) /\
  5 - _last_helius_t Sample.globals_100001 < _HELIUS_CACHE_TTL /\
  get_dashboard Sample.str_float Sample.cfg_no_key 5 (ExtOk Sample.token_info)
    Sample.world_zero_balance Sample.globals_100001 = (Sample.globals_100001, Ok d).
Proof.
  intros d.
  assert (H : get_dashboard Sample.str_float Sample.cfg_no_key 0 (ExtErr "no reply")
                Sample.world_ok Sample.globals_100001 = (Sample.globals_100001, Ok d))
    by (vm_compute; reflexivity).
  assert (Hl : 5 - _last_helius_t Sample.globals_100001 < _HELIUS_CACHE_TTL)
    by (vm_compute; reflexivity).
  split; [exact H|]. split; [exact Hl|].
  exact (repeated_read_changes_nothing Sample.str_float Sample.cfg_no_key 0
           (ExtErr "no reply") Sample.world_ok Sample.globals_100001
           Sample.globals_100001 d 5 (ExtOk Sample.token_info)
           Sample.world_zero_balance H Hl).
Defined.
